(** * bitcoin-content-curator: the curation pipeline and its output log

    A shallow embedding of the Python sources (fetcher.py, database.py,
    scorer.py, generator.py, output.py, pipeline.py, curator.py) and the
    properties of the pipeline, the parsers and the markdown log writer.

    Conventions of the embedding:
    - a Python [str] is a Rocq [string], read as a sequence of code points
      below 256;
    - a Python [float] is a [pyfloat]: a finite value, given as the exact
      rational it stands for, an infinity, or NaN;
    - a Python [int] is a [Z];
    - whatever the program gets from outside (the feeds, the language model,
      the clock, the JSON decoder, the file system where it fails, and the
      other library routines it calls) is a field of the record [World];
    - an exception that leaves a function is a value of [exn]; [print] calls
      are left out, except where evaluating their argument can raise. *)

From Stdlib Require Import ZArith QArith Ascii String List Bool Lia.
From Stdlib Require Import DecimalString.
From stdpp Require Import base option list gmap strings.

Set Warnings "-register-all".
Local Open Scope Z_scope.
Local Open Scope string_scope.

(** ** Python values and string operations *)

Module Py.

(** A Python [float]: a finite value, given as the rational it stands for,
    an infinity, or NaN ([json.loads] reads [NaN] and [Infinity], and so
    does [float] on a string). *)
Inductive pyfloat : Type :=
| Finite (q : Q)
| PosInf
| NegInf
| NaN.

(** The values a decoded JSON document is made of. *)
Inductive pyval : Type :=
| PNone
| PBool (b : bool)
| PInt (z : Z)
| PFloat (f : pyfloat)
| PStr (s : string)
| PList (l : list pyval)
| PDict (kv : list (string * pyval)).

(** A number is an [int] or a [float]; both are compared by value. *)
Inductive number : Type :=
| NInt (z : Z)
| NFloat (f : pyfloat).

Definition num_val (n : number) : pyfloat :=
  match n with
  | NInt z => Finite (inject_Z z)
  | NFloat f => f
  end.

Definition of_number (n : number) : pyval :=
  match n with
  | NInt z => PInt z
  | NFloat f => PFloat f
  end.

(** [a <= b] on numbers: false as soon as one side is NaN. The program
    writes [score >= threshold], which is [fle threshold score]. *)
Definition fle (a b : pyfloat) : bool :=
  match a, b with
  | NaN, _ | _, NaN => false
  | NegInf, _ | _, PosInf => true
  | Finite x, Finite y => Qle_bool x y
  | PosInf, _ | _, NegInf => false
  end.

(** [a < b] on numbers. *)
Definition flt (a b : pyfloat) : bool :=
  match a, b with
  | NaN, _ | _, NaN => false
  | PosInf, _ | _, NegInf => false
  | Finite x, Finite y => negb (Qle_bool y x)
  | NegInf, _ | _, PosInf => true
  end.

Definition is_nan (f : pyfloat) : bool :=
  match f with NaN => true | _ => false end.

(** The double nearest to an integer, ties going to the even mantissa, as
    [float(z)] and SQLite's conversion of an INTEGER to a REAL compute it:
    integers up to 2^53 in magnitude are kept, larger ones are rounded to
    53 significant bits. *)
Definition round_int (z : Z) : Z :=
  let a := Z.abs z in
  if (a <? 2 ^ 53)%Z then z
  else
    let e := (Z.log2 a - 52)%Z in
    let m := (a / 2 ^ e)%Z in
    let r := (a mod 2 ^ e)%Z in
    let half := (2 ^ (e - 1))%Z in
    let m' :=
      if (half <? r)%Z || ((r =? half)%Z && Z.odd m) then (m + 1)%Z else m in
    (Z.sgn z * (m' * 2 ^ e))%Z.

(** [float(z)] for an [int]: [None] stands for [OverflowError], raised when
    the rounded value is beyond the largest double. *)
Definition float_of_int (z : Z) : option pyfloat :=
  let v := round_int z in
  if (2 ^ 1024 <=? Z.abs v)%Z then None else Some (Finite (inject_Z v)).

(** The exception classes the program can meet. A class stands for its
    subclasses too, except for [JSONDecodeError], a subclass of
    [ValueError] that the handlers of the parsers name. *)
Inductive exn : Type :=
| JSONDecodeError
| KeyError
| TypeError
| AttributeError
| ValueError
| OverflowError
| IntegrityError   (* sqlite3.IntegrityError: a UNIQUE or NOT NULL constraint *)
| BindError        (* sqlite3: a parameter of an unsupported type *)
| OSError          (* the file system: PermissionError, IsADirectoryError, ... *)
| OtherError (class_name : string).   (* any other class: RecursionError, ... *)

Definition LF : ascii := "010"%char.
Definition CR : ascii := "013"%char.
Definition nl : string := String LF "".

(** [str.isspace] on the code points below 256. *)
Definition isspace (c : ascii) : bool :=
  let n := nat_of_ascii c in
  ((9 <=? n) && (n <=? 13) || (28 <=? n) && (n <=? 31)
   || (n =? 32) || (n =? 133) || (n =? 160))%nat.

Fixpoint lstrip (s : string) : string :=
  match s with
  | "" => ""
  | String c t => if isspace c then lstrip t else s
  end.

Fixpoint rstrip (s : string) : string :=
  match s with
  | "" => ""
  | String c t =>
      match rstrip t with
      | "" => if isspace c then "" else String c ""
      | t' => String c t'
      end
  end.

(** [s.strip()] *)
Definition strip (s : string) : string := lstrip (rstrip s).

(** [s.startswith(p)] *)
Definition startswith (p s : string) : bool := String.prefix p s.

(** [s.split(sep)] for a separator of one character. *)
Fixpoint split (sep : ascii) (s : string) : list string :=
  match s with
  | "" => [""]
  | String c t =>
      if Ascii.eqb c sep then "" :: split sep t
      else match split sep t with
           | l :: ls => String c l :: ls
           | [] => [String c ""]
           end
  end.

(** [sep.join(l)] *)
Fixpoint join (sep : string) (l : list string) : string :=
  match l with
  | [] => ""
  | x :: xs =>
      match xs with
      | [] => x
      | _ :: _ => x +:+ sep +:+ join sep xs
      end
  end.


(** [l[1:-1]] *)
Definition slice_1_m1 {A} (l : list A) : list A := removelast (tail l).

(** Truth value of a value, as [if v:] takes it. *)
Definition truthy (v : pyval) : bool :=
  match v with
  | PNone => false
  | PBool b => b
  | PInt z => negb (z =? 0)%Z
  | PFloat (Finite q) => negb (Qeq_bool q 0)
  | PFloat _ => true
  | PStr s => negb (String.eqb s "")
  | PList l => match l with [] => false | _ => true end
  | PDict kv => match kv with [] => false | _ => true end
  end.

(** [d.get(k, default)] on a decoded JSON object; a later duplicate of a key
    has already replaced the earlier one when the object was decoded, so the
    pairs are looked up from the front. *)
Fixpoint dict_get (kv : list (string * pyval)) (k : string) (dflt : pyval) : pyval :=
  match kv with
  | [] => dflt
  | (k', v) :: rest => if String.eqb k' k then v else dict_get rest k dflt
  end.

(** Text-mode reading ([newline=None]): a carriage return, alone or followed
    by a line feed, is read as one line feed. *)
Fixpoint universal_newlines (s : string) : string :=
  match s with
  | "" => ""
  | String c t =>
      if Ascii.eqb c CR then
        String LF (match t with
                   | String c' t' => if Ascii.eqb c' LF then universal_newlines t'
                                     else universal_newlines t
                   | "" => ""
                   end)
      else String c (universal_newlines t)
  end.

(** [str(z)] for an integer. *)
Definition str_of_int (z : Z) : string := NilZero.string_of_int (Z.to_int z).

End Py.

(** ** What the program gets from outside *)

Module Fetcher.

(** fetcher.py, [Article] *)
Record Article : Type := {
  url : string;
  title : string;
  summary : string;
  source : string;
  published_at : option string
}.

Section Feeds.

(** [fetch_feed] reads the network and swallows its own errors; what it
    returns for a feed is given. *)
Variable fetch_feed : string -> list Article.

(** The inner loop of [fetch_all_feeds]: the articles of one feed whose URL
    was not seen yet in this run, and the URLs seen after it. *)
Fixpoint yield_unseen (seen_urls : gset string) (articles : list Article)
    : list Article * gset string :=
  match articles with
  | [] => ([], seen_urls)
  | article :: rest =>
      if decide (url article ∈ seen_urls) then yield_unseen seen_urls rest
      else
        let '(out, seen') := yield_unseen ({[url article]} ∪ seen_urls) rest in
        (article :: out, seen')
  end.

Fixpoint fetch_feeds_from (seen_urls : gset string) (feed_urls : list string)
    : list Article :=
  match feed_urls with
  | [] => []
  | feed_url :: rest =>
      let '(out, seen') := yield_unseen seen_urls (fetch_feed feed_url) in
      out ++ fetch_feeds_from seen' rest
  end.

(** [fetch_all_feeds]: the articles the generator yields, in order. *)
Definition fetch_all_feeds (feed_urls : list string) : list Article :=
  fetch_feeds_from ∅ feed_urls.

End Feeds.

End Fetcher.

(** One call of [client.messages.create]: the model, the bound on the output
    tokens, and the fields that fill the prompt template. *)
Inductive request : Type :=
| ScoreRequest (model : string) (max_tokens : Z) (title summary source : string)
| GenerateRequest (model : string) (max_tokens : Z)
    (title summary source url style_guide : string).

(** A failed write of a log entry: the exception raised while the
    directories were created or the file was read or written, and what the
    failure left in the file when it struck after the file was opened for
    writing ([None]: the file is as it was). *)
Record io_fault : Type := {
  fault_exn : Py.exn;
  fault_left : option string
}.

Record World : Type := {
  (** [json.loads]: the value decoded, or the exception raised
      ([JSONDecodeError] for a text that is not JSON; [ValueError] for an
      integer of too many digits, [RecursionError], ...) *)
  json_loads : string -> Py.exn + Py.pyval;
  (** [float(s)] on a string: [None] stands for [ValueError] *)
  float_of_str : string -> option Py.pyfloat;
  (** [repr], where [str] falls back on it: floats, lists and dicts *)
  py_repr : Py.pyval -> string;
  (** [hashlib.sha256(s.encode()).hexdigest()] *)
  sha256_hexdigest : string -> string;
  (** [fetch_feed(feed_url)]: the articles one feed yields *)
  fetch_feed : string -> list Fetcher.Article;
  (** the text of the first content block of the reply to the [n]-th call of
      the run (counting from 0) *)
  messages_create : nat -> request -> string;
  (** the clock as read while the [k]-th article of the run is processed:
      [datetime.utcnow().isoformat()], SQLite's [CURRENT_TIMESTAMP] and
      [datetime.now().strftime(...)] *)
  utcnow_isoformat : Z -> string;
  current_timestamp : Z -> string;
  now_strftime : Z -> string;
  (** whether a slice can be a dictionary key (from Python 3.12 on) *)
  slice_is_hashable : bool;
  (** the text SQLite makes of a REAL that goes into a TEXT column *)
  sqlite_real_text : Py.pyfloat -> string;
  (** [str(Path(p).expanduser())] *)
  expanduser : string -> string;
  (** what goes wrong in the file system, if anything does, when the entry
      of the [k]-th article of the run is written *)
  fs_fault : Z -> option io_fault
}.

(** [str(v)], as an f-string renders a value. *)
Definition py_str (w : World) (v : Py.pyval) : string :=
  match v with
  | Py.PNone => "None"
  | Py.PBool true => "True"
  | Py.PBool false => "False"
  | Py.PInt z => Py.str_of_int z
  | Py.PStr s => s
  | Py.PFloat _ | Py.PList _ | Py.PDict _ => py_repr w v
  end.

(** ** output.py: the markdown logs *)

Module Output.

Import Py.

(** The files of the disk, by path. *)
Abbreviation files := (gmap string string).

(** [self.space_path / name] *)
Definition path_join (space_path name : string) : string :=
  space_path +:+ "/" +:+ name.

Definition filename_map : gmap string string :=
  <["ready" := "Content/ReadyToPost.md"]>
  (<["review" := "Content/NeedsReview.md"]>
  (<["archive" := "Content/Archive.md"]> ∅)).

Definition titles : gmap string string :=
  <["ready" := "Ready to Post"]>
  (<["review" := "Needs Review"]>
  (<["archive" := "Archive"]> ∅)).

(** [_read_existing] *)
Definition _read_existing (fs : files) (filepath : string) : string :=
  match fs !! filepath with
  | Some stored => universal_newlines stored
  | None => ""
  end.

(** [_get_header] *)
Definition _get_header (category : string) : string :=
  "---" +:+ nl +:+
  "title: " +:+ default "Content" (titles !! category) +:+ nl +:+
  "tags: #content #bitcoin" +:+ nl +:+
  "---" +:+ nl +:+
  nl.

(** [_format_entry] *)
Definition _format_entry (w : World) (title url source : string)
    (score : number) (score_reason : pyval) (timestamp : string)
    (tweet thread linkedin : pyval) : string :=
  let entry :=
    nl +:+ "## " +:+ title +:+ nl +:+
    nl +:+
    "**Source:** " +:+ source +:+ " | **Score:** " +:+ py_str w (of_number score)
      +:+ "/10 | **Added:** " +:+ timestamp +:+ nl +:+
    "**Link:** " +:+ url +:+ nl +:+
    "**Why:** " +:+ py_str w score_reason +:+ nl in
  let entry :=
    if truthy tweet then
      entry +:+ (nl +:+ "### Tweet" +:+ nl +:+ "```" +:+ nl +:+
                 py_str w tweet +:+ nl +:+ "```" +:+ nl)
    else entry in
  let entry :=
    if truthy thread then
      entry +:+ (nl +:+ "### Thread" +:+ nl +:+ "```" +:+ nl +:+
                 py_str w thread +:+ nl +:+ "```" +:+ nl)
    else entry in
  let entry :=
    if truthy linkedin then
      entry +:+ (nl +:+ "### LinkedIn" +:+ nl +:+ py_str w linkedin +:+ nl)
    else entry in
  entry +:+ (nl +:+ "---" +:+ nl).

(** The loop of [append_content] that looks for the end of the header: the
    first line after line 0 that starts with three dashes. *)
Fixpoint find_header_end (i : nat) (lines : list string) : nat :=
  match lines with
  | [] => 0%nat
  | line :: rest =>
      if startswith "---" line && (0 <? i)%nat then S i
      else find_header_end (S i) rest
  end.

(** The text [append_content] writes, from the text it read and the entry. *)
Definition spliced (category existing entry : string) (prepend : bool) : string :=
  let existing :=
    if String.eqb existing "" then _get_header category else existing in
  let new_content :=
    if prepend then
      let lines := split LF existing in
      let header_end := find_header_end 0 lines in
      let header_part := join nl (take header_end lines) in
      let content_part := join nl (drop header_end lines) in
      header_part +:+ nl +:+ entry +:+ nl +:+ content_part
    else existing +:+ nl +:+ entry in
  strip new_content +:+ nl.

(** [SilverBulletOutput.append_content]; [now] is the clock reading. *)
Definition append_content (w : World) (space_path : string) (fs : files)
    (category title url source : string) (score : number)
    (score_reason : pyval) (now : string)
    (tweet thread linkedin : pyval) (prepend : bool) : files :=
  let filepath :=
    path_join space_path (default "Content/Other.md" (filename_map !! category)) in
  let entry :=
    _format_entry w title url source score score_reason now tweet thread linkedin in
  let existing := _read_existing fs filepath in
  <[filepath := spliced category existing entry prepend]> fs.

(** [write_to_silverbullet]: a fresh writer on the expanded path, then
    [append_content] with the default [prepend=True]. Creating the
    directories, reading the file and writing it can each raise: [fault] is
    that failure, if there is one. The call returns the files, or raises
    and leaves the files as the failure left them. *)
Definition write_to_silverbullet (w : World) (fault : option io_fault)
    (space_path : string) (fs : files)
    (category title url source : string) (score : number)
    (score_reason : pyval) (now : string) (tweet thread linkedin : pyval)
    : exn * files + files :=
  let space_path := expanduser w space_path in
  match fault with
  | None =>
      inr (append_content w space_path fs category title url source score
             score_reason now tweet thread linkedin true)
  | Some f =>
      inl (fault_exn f,
           match fault_left f with
           | None => fs
           | Some partial =>
               <[path_join space_path
                   (default "Content/Other.md" (filename_map !! category))
                 := partial]> fs
           end)
  end.

End Output.

(** ** database.py: the record store *)

Module Database.

Import Py.

(** A row of the table [articles]. *)
Record ArticleRow : Type := {
  art_id : Z;
  art_url_hash : string;
  art_url : string;
  art_title : string;
  art_source : string;
  art_published_at : option string;
  art_fetched_at : string;
  art_score : option pyfloat;
  art_score_reason : pyval;
  art_status : string;
  art_created_at : string
}.

(** A row of the table [generated_content]. *)
Record ContentRow : Type := {
  gc_id : Z;
  gc_article_id : Z;
  gc_content_type : string;
  gc_content : pyval;
  gc_created_at : string
}.

(** The database behind a connection: the two tables and, for each, the
    largest row id ever given out ([sqlite_sequence]). Every statement is
    committed at once, so this is also what is on disk. *)
Record Conn : Type := {
  articles : list ArticleRow;
  generated_content : list ContentRow;
  seq_articles : Z;
  seq_generated_content : Z
}.

(** What [get_connection] finds where there was no database file. *)
Definition empty_db : Conn :=
  {| articles := []; generated_content := [];
     seq_articles := 0; seq_generated_content := 0 |}.

(** The row id of an [AUTOINCREMENT] key: one more than the largest id in
    the table or ever given out. *)
Definition next_rowid (ids : list Z) (seq : Z) : Z :=
  1 + foldr Z.max seq ids.

(** Binding a Python value to a statement parameter: what SQLite is given.
    A [bool] is bound as the integer it is, NaN as NULL; an integer beyond
    64 bits and a list or a dict cannot be bound. *)
Definition bind_value (v : pyval) : exn + pyval :=
  match v with
  | PList _ | PDict _ => inl BindError
  | PInt z =>
      if (- 2 ^ 63 <=? z)%Z && (z <? 2 ^ 63)%Z then inr v else inl OverflowError
  | PBool b => inr (PInt (if b then 1 else 0))
  | PFloat NaN => inr PNone
  | _ => inr v
  end.

(** What a column of type REAL stores of a bound number: an INTEGER becomes
    a REAL. *)
Definition as_real (v : pyval) : option pyfloat :=
  match v with
  | PInt z => Some (Finite (inject_Z (round_int z)))
  | PFloat f => Some f
  | _ => None
  end.

Section WithWorld.

Variable w : World.

(** What a column of type TEXT stores of a bound value: a number becomes
    its text. *)
Definition as_text (v : pyval) : pyval :=
  match v with
  | PInt z => PStr (str_of_int z)
  | PFloat f => PStr (sqlite_real_text w f)
  | _ => v
  end.

(** [url_hash] *)
Definition url_hash (url : string) : string :=
  substring 0 16 (sha256_hexdigest w url).

(** [article_exists] *)
Definition article_exists (conn : Conn) (url : string) : bool :=
  existsb (fun r => String.eqb (art_url_hash r) (url_hash url)) (articles conn).

(** The row [insert_article] inserts: the columns it names, and the
    defaults of the others. *)
Definition new_row (lastrowid : Z) (k : Z) (url title source : string)
    (published_at : option string) : ArticleRow :=
  {| art_id := lastrowid;
     art_url_hash := url_hash url;
     art_url := url;
     art_title := title;
     art_source := source;
     art_published_at := published_at;
     art_fetched_at := utcnow_isoformat w k;
     art_score := None;
     art_score_reason := PNone;
     art_status := "new";
     art_created_at := current_timestamp w k |}.

(** [insert_article]; [k] says which reading of the clock is taken. The
    column [url_hash] is [UNIQUE]. *)
Definition insert_article (conn : Conn) (k : Z) (url title source : string)
    (published_at : option string) : exn + (Z * Conn) :=
  if existsb (fun r => String.eqb (art_url_hash r) (url_hash url)) (articles conn)
  then inl IntegrityError
  else
    let lastrowid := next_rowid (map art_id (articles conn)) (seq_articles conn) in
    let row := new_row lastrowid k url title source published_at in
    inr (lastrowid,
         {| articles := articles conn ++ [row];
            generated_content := generated_content conn;
            seq_articles := lastrowid;
            seq_generated_content := seq_generated_content conn |}).

(** The [UPDATE] of [update_score] on one row, with the values as the
    columns store them. *)
Definition set_score (article_id : Z) (score : option pyfloat) (reason : pyval)
    (status : string) (r : ArticleRow) : ArticleRow :=
  if (art_id r =? article_id)%Z then
    {| art_id := art_id r;
       art_url_hash := art_url_hash r;
       art_url := art_url r;
       art_title := art_title r;
       art_source := art_source r;
       art_published_at := art_published_at r;
       art_fetched_at := art_fetched_at r;
       art_score := score;
       art_score_reason := reason;
       art_status := status;
       art_created_at := art_created_at r |}
  else r.

(** [update_score]: the parameters are bound in the order of the statement,
    the score first; the column [score] is a REAL, [score_reason] a TEXT. *)
Definition update_score (conn : Conn) (article_id : Z) (score : number)
    (reason : pyval) (status : string) : exn + Conn :=
  match bind_value (of_number score) with
  | inl e => inl e
  | inr score' =>
      match bind_value reason with
      | inl e => inl e
      | inr reason' =>
          inr {| articles :=
                   map (set_score article_id (as_real score') (as_text reason')
                          status) (articles conn);
                 generated_content := generated_content conn;
                 seq_articles := seq_articles conn;
                 seq_generated_content := seq_generated_content conn |}
      end
  end.

(** [insert_content]; the column [content] is a TEXT and [NOT NULL]. *)
Definition insert_content (conn : Conn) (k : Z) (article_id : Z)
    (content_type : string) (content : pyval) : exn + (Z * Conn) :=
  match bind_value content with
  | inl e => inl e
  | inr PNone => inl IntegrityError
  | inr content' =>
      let lastrowid :=
        next_rowid (map gc_id (generated_content conn)) (seq_generated_content conn) in
      let row :=
        {| gc_id := lastrowid;
           gc_article_id := article_id;
           gc_content_type := content_type;
           gc_content := as_text content';
           gc_created_at := current_timestamp w k |} in
      inr (lastrowid,
           {| articles := articles conn;
              generated_content := generated_content conn ++ [row];
              seq_articles := seq_articles conn;
              seq_generated_content := lastrowid |})
  end.


End WithWorld.

End Database.

(** ** scorer.py and generator.py: reading the model's reply *)

(** The code both parsers run on the reply before decoding it: a reply that
    starts with a code fence loses its first and its last line. *)
Definition strip_code_fence (text : string) : string :=
  if Py.startswith "```" text
  then Py.join Py.nl (Py.slice_1_m1 (Py.split Py.LF text))
  else text.

(** [float(v)]; an [int] is rounded to the nearest double. *)
Definition py_float (w : World) (v : Py.pyval) : Py.exn + Py.pyfloat :=
  match v with
  | Py.PNone => inl Py.TypeError
  | Py.PBool b => inr (Py.Finite (if b then 1%Q else 0%Q))
  | Py.PInt z =>
      match Py.float_of_int z with
      | Some f => inr f
      | None => inl Py.OverflowError
      end
  | Py.PFloat f => inr f
  | Py.PStr s =>
      match float_of_str w s with
      | Some f => inr f
      | None => inl Py.ValueError
      end
  | Py.PList _ | Py.PDict _ => inl Py.TypeError
  end.

(** The handlers of the two parsers:
    [except (json.JSONDecodeError, KeyError, TypeError)]. *)
Definition caught (e : Py.exn) : bool :=
  match e with
  | Py.JSONDecodeError | Py.KeyError | Py.TypeError => true
  | _ => false
  end.

Module Scorer.

Import Py.

(** [ScoreResult]; the fields hold what the reply held, the annotations of
    the dataclass are not enforced. *)
Record ScoreResult : Type := {
  score : number;
  reason : pyval;
  is_bitcoin_relevant : pyval
}.

(** The value returned when the reply cannot be read. *)
Definition parse_failed : ScoreResult :=
  {| score := NInt 1;
     reason := PStr "Failed to parse";
     is_bitcoin_relevant := PBool false |}.

Definition score_request (title summary source model : string) : request :=
  ScoreRequest model 256 title summary source.

(** The [try] block of [score_article] on the text to decode, with its
    handler; a value that is not a dict has no [get]. *)
Definition parse_score (w : World) (text : string) : exn + ScoreResult :=
  match json_loads w text with
  | inl e => if caught e then inr parse_failed else inl e
  | inr (PDict data) =>
      match py_float w (dict_get data "score" (PInt 1)) with
      | inr f =>
          inr {| score := NFloat f;
                 reason := dict_get data "reason" (PStr "No reason provided");
                 is_bitcoin_relevant :=
                   dict_get data "is_bitcoin_relevant" (PBool false) |}
      | inl e => if caught e then inr parse_failed else inl e
      end
  | inr _ => inl AttributeError
  end.

(** [score_article], as the [n]-th call of the run to the model. *)
Definition score_article (w : World) (n : nat)
    (title summary source model : string) : exn + ScoreResult :=
  let response := messages_create w n (score_request title summary source model) in
  let text := strip response in
  let text := strip_code_fence text in
  parse_score w text.

End Scorer.

Module Generator.

Import Py.

(** [GeneratedContent] *)
Record GeneratedContent : Type := {
  tweet : pyval;
  thread : pyval;
  linkedin : pyval
}.

Definition generate_request (title summary source url style_guide model : string)
    : request :=
  GenerateRequest model 1500 title summary source url style_guide.

(** The [try] block of [generate_content] on the text to decode, with its
    handler. *)
Definition parse_content (w : World) (text : string) : exn + GeneratedContent :=
  match json_loads w text with
  | inl e =>
      if caught e
      then inr {| tweet := PStr ""; thread := PStr ""; linkedin := PStr "" |}
      else inl e
  | inr (PDict data) =>
      inr {| tweet := dict_get data "tweet" (PStr "");
             thread := dict_get data "thread" (PStr "");
             linkedin := dict_get data "linkedin" (PStr "") |}
  | inr _ => inl AttributeError
  end.

(** [generate_content], as the [n]-th call of the run to the model. *)
Definition generate_content (w : World) (n : nat)
    (title summary source url style_guide model : string)
    : exn + GeneratedContent :=
  let response :=
    messages_create w n (generate_request title summary source url style_guide model) in
  let text := strip response in
  let text := strip_code_fence text in
  parse_content w text.

End Generator.

(** ** config.py *)

Module Config.

Definition RSS_FEEDS : list string :=
  [ "https://bitcoinmagazine.com/.rss/full/";
    "https://www.coindesk.com/arc/outboundfeeds/rss/?outputType=xml";
    "https://cointelegraph.com/rss/tag/bitcoin";
    "https://bitcoinist.com/feed/";
    "https://news.bitcoin.com/feed/";
    "https://decrypt.co/feed" ].

Definition SCORE_HIGH : Py.pyfloat := Py.Finite 7.
Definition SCORE_MEDIUM : Py.pyfloat := Py.Finite 4.
Definition CLAUDE_MODEL : string := "claude-sonnet-4-20250514".
Definition MAX_ARTICLES_PER_RUN : Z := 20.

Definition CONTENT_STYLE : string :=
  Py.nl +:+
  "You write as a Bitcoin-focused content creator. Your style is:" +:+ Py.nl +:+
  "- Knowledgeable but accessible" +:+ Py.nl +:+
  "- Focused on Bitcoin (not crypto in general)" +:+ Py.nl +:+
  "- Signal over noise - cut through hype" +:+ Py.nl +:+
  "- Balanced perspective - acknowledge both opportunities and risks" +:+ Py.nl +:+
  "- No shilling or price predictions" +:+ Py.nl.

End Config.

(** ** pipeline.py: the orchestrator *)

Module Pipeline.

Import Py Fetcher Database Scorer Generator Output.

(** The dictionary [stats]. *)
Record Stats : Type := {
  fetched : Z;
  new : Z;
  skipped_duplicate : Z;
  scored : Z;
  generated : Z;
  ready : Z;
  review : Z;
  archive : Z
}.

Definition stats0 : Stats :=
  {| fetched := 0; new := 0; skipped_duplicate := 0; scored := 0;
     generated := 0; ready := 0; review := 0; archive := 0 |}.

(** What a run reads and changes: its counters, the database, the files, and
    the calls made to the model so far (the oldest first). *)
Record State : Type := {
  stats : Stats;
  processed : Z;
  conn : Conn;
  disk : files;
  calls : list request
}.

Definition incr_fetched (s : Stats) : Stats :=
  {| fetched := fetched s + 1; new := new s;
     skipped_duplicate := skipped_duplicate s; scored := scored s;
     generated := generated s; ready := ready s; review := review s;
     archive := archive s |}.
Definition incr_new (s : Stats) : Stats :=
  {| fetched := fetched s; new := new s + 1;
     skipped_duplicate := skipped_duplicate s; scored := scored s;
     generated := generated s; ready := ready s; review := review s;
     archive := archive s |}.
Definition incr_skipped_duplicate (s : Stats) : Stats :=
  {| fetched := fetched s; new := new s;
     skipped_duplicate := skipped_duplicate s + 1; scored := scored s;
     generated := generated s; ready := ready s; review := review s;
     archive := archive s |}.
Definition incr_scored (s : Stats) : Stats :=
  {| fetched := fetched s; new := new s;
     skipped_duplicate := skipped_duplicate s; scored := scored s + 1;
     generated := generated s; ready := ready s; review := review s;
     archive := archive s |}.
Definition incr_generated (s : Stats) : Stats :=
  {| fetched := fetched s; new := new s;
     skipped_duplicate := skipped_duplicate s; scored := scored s;
     generated := generated s + 1; ready := ready s; review := review s;
     archive := archive s |}.
Definition incr_ready (s : Stats) : Stats :=
  {| fetched := fetched s; new := new s;
     skipped_duplicate := skipped_duplicate s; scored := scored s;
     generated := generated s; ready := ready s + 1; review := review s;
     archive := archive s |}.
Definition incr_review (s : Stats) : Stats :=
  {| fetched := fetched s; new := new s;
     skipped_duplicate := skipped_duplicate s; scored := scored s;
     generated := generated s; ready := ready s; review := review s + 1;
     archive := archive s |}.
Definition incr_archive (s : Stats) : Stats :=
  {| fetched := fetched s; new := new s;
     skipped_duplicate := skipped_duplicate s; scored := scored s;
     generated := generated s; ready := ready s; review := review s;
     archive := archive s + 1 |}.

Definition with_stats (f : Stats -> Stats) (s : State) : State :=
  {| stats := f (stats s); processed := processed s; conn := conn s;
     disk := disk s; calls := calls s |}.
Definition with_processed (p : Z) (s : State) : State :=
  {| stats := stats s; processed := p; conn := conn s;
     disk := disk s; calls := calls s |}.
Definition with_conn (c : Conn) (s : State) : State :=
  {| stats := stats s; processed := processed s; conn := c;
     disk := disk s; calls := calls s |}.
Definition with_disk (d : files) (s : State) : State :=
  {| stats := stats s; processed := processed s; conn := conn s;
     disk := d; calls := calls s |}.
Definition with_call (r : request) (s : State) : State :=
  {| stats := stats s; processed := processed s; conn := conn s;
     disk := disk s; calls := calls s ++ [r] |}.

(** A computation on the state of the run that returns or raises; the state
    is kept either way, as what was committed and written stays. *)
Inductive result (A : Type) : Type :=
| Ok (a : A) (s : State)
| Raise (e : exn) (s : State).
Arguments Ok {A} a s.
Arguments Raise {A} e s.

Definition M (A : Type) : Type := State -> result A.

Definition ret {A} (a : A) : M A := fun s => Ok a s.
Definition bind {A B} (m : M A) (k : A -> M B) : M B :=
  fun s => match m s with
           | Ok a s' => k a s'
           | Raise e s' => Raise e s'
           end.
Definition raise {A} (e : exn) : M A := fun s => Raise e s.
Definition gets {A} (f : State -> A) : M A := fun s => Ok (f s) s.
Definition modify (f : State -> State) : M unit := fun s => Ok tt (f s).

Notation "x <- m ;; k" := (bind m (fun x => k))
  (at level 100, m at next level, right associativity).
Notation "m ;; k" := (bind m (fun _ => k))
  (at level 100, right associativity).

(** How an iteration of the loop ends: it goes on to the next article
    ([continue], or the end of the body) or leaves the loop ([break]). *)
Inductive control : Type := Continue | Break.

(** The thresholds of lines 96-107: the category, the status to store, and
    the counter that goes up. *)
Definition categorize (score score_high score_medium : pyfloat) (st : Stats)
    : string * string * Stats :=
  if fle score_high score then ("ready", "ready", incr_ready st)
  else if fle score_medium score then ("review", "review", incr_review st)
  else ("archive", "archived", incr_archive st).

(** The test of line 114. *)
Definition wants_content (score_result : ScoreResult) (score_medium : pyfloat)
    : bool :=
  fle score_medium (num_val (score score_result))
  && truthy (is_bitcoin_relevant score_result).

(** [v[:50]] inside the f-string of line 93: strings and lists can be
    sliced. A dict is asked for the key [slice(None, 50)]: where a slice
    cannot be hashed that is a [TypeError], and from Python 3.12 on a
    [KeyError], as a decoded object has strings for keys. The other values
    cannot be subscripted ([TypeError]). *)
Definition slice_check (w : World) (v : pyval) : M unit :=
  match v with
  | PStr _ | PList _ => ret tt
  | PDict _ => raise (if slice_is_hashable w then KeyError else TypeError)
  | _ => raise TypeError
  end.

Section Run.

Variable w : World.
Variables (silverbullet_space model style_guide : string).
Variables (score_high score_medium : pyfloat).
Variable max_articles : Z.
Variable dry_run : bool.

(** [if v: insert_content(conn, article_id, content_type, v)] *)
Definition store_if (article_id : Z) (content_type : string) (v : pyval) : M unit :=
  if truthy v then
    s <- gets id ;;
    match insert_content w (conn s) (processed s) article_id content_type v with
    | inl e => raise e
    | inr (_, c) => modify (with_conn c)
    end
  else ret tt.

(** Lines 112-137: the content of an article that passes the test, stored
    variant by variant; [n] is the number of calls made before. *)
Definition generate_and_store (article : Article) (article_id : Z)
    (score_result : ScoreResult) (n : nat) : M (pyval * pyval * pyval) :=
  if wants_content score_result score_medium then
    modify (with_call (generate_request (title article) (summary article)
                         (source article) (url article) style_guide model)) ;;
    match generate_content w n (title article) (summary article)
            (source article) (url article) style_guide model with
    | inl e => raise e
    | inr content =>
        modify (with_stats incr_generated) ;;
        store_if article_id "tweet" (tweet content) ;;
        store_if article_id "thread" (thread content) ;;
        store_if article_id "linkedin" (linkedin content) ;;
        ret (tweet content, thread content, linkedin content)
    end
  else ret (PNone, PNone, PNone).

(** Lines 139-155: the entry goes to the log of its category, unless the run
    is a dry run. *)
Definition write_output (article : Article) (category : string)
    (score_result : ScoreResult) (k : Z) (content : pyval * pyval * pyval)
    : M unit :=
  let '(tweet, thread, linkedin) := content in
  if negb dry_run then
    s <- gets id ;;
    match write_to_silverbullet w (fs_fault w k) silverbullet_space (disk s)
            category (title article) (url article) (source article)
            (score score_result) (reason score_result) (now_strftime w k)
            tweet thread linkedin with
    | inr fs => modify (with_disk fs)
    | inl (e, fs) => modify (with_disk fs) ;; raise e
    end
  else ret tt.

(** The body of the loop of [run_pipeline] for one article. *)
Definition process (article : Article) : M control :=
  modify (with_stats incr_fetched) ;;
  s <- gets id ;;
  if article_exists w (conn s) (url article) then
    modify (with_stats incr_skipped_duplicate) ;;
    ret Continue
  else
    modify (with_stats incr_new) ;;
    if (max_articles <=? processed s)%Z then ret Break
    else
      let k := (processed s + 1)%Z in
      modify (with_processed k) ;;
      match insert_article w (conn s) k (url article) (title article)
              (source article) (published_at article) with
      | inl e => raise e
      | inr (article_id, c) =>
          modify (with_conn c) ;;
          modify (with_call (score_request (title article) (summary article)
                               (source article) model)) ;;
          match score_article w (length (calls s)) (title article)
                  (summary article) (source article) model with
          | inl e => raise e
          | inr score_result =>
              modify (with_stats incr_scored) ;;
              slice_check w (reason score_result) ;;
              s1 <- gets id ;;
              let '(category, status, st) :=
                categorize (num_val (score score_result)) score_high
                  score_medium (stats s1) in
              modify (with_stats (fun _ => st)) ;;
              match update_score w (conn s1) article_id (score score_result)
                      (reason score_result) status with
              | inl e => raise e
              | inr c1 =>
                  modify (with_conn c1) ;;
                  content <- generate_and_store article article_id score_result
                               (S (length (calls s))) ;;
                  write_output article category score_result k content ;;
                  ret Continue
              end
          end
      end.

(** The [for] loop over the articles the feeds yield. *)
Fixpoint for_each (articles : list Article) : M unit :=
  match articles with
  | [] => ret tt
  | article :: rest =>
      c <- process article ;;
      match c with
      | Continue => for_each rest
      | Break => ret tt
      end
  end.

(** [run_pipeline]: [db] is the database found at [db_path], [fs] the files
    on disk. The result is the dictionary of counters, with the state the
    run leaves behind. *)
Definition run_pipeline (api_key : string) (feeds : list string)
    (db : Conn) (fs : files) : result Stats :=
  let s0 :=
    {| stats := stats0; processed := 0; conn := db; disk := fs; calls := [] |} in
  match for_each (fetch_all_feeds (fetch_feed w) feeds) s0 with
  | Ok _ s => Ok (stats s) s
  | Raise e s => Raise e s
  end.

End Run.

(** The state a computation leaves, whether it returned or raised. *)
Definition final {A} (r : result A) : State :=
  match r with
  | Ok _ s => s
  | Raise _ s => s
  end.



(** The counters of a run that has no budget left, over the articles still
    to come: duplicates are counted up to the first new article, which is
    counted too and ends the loop. *)
Fixpoint skim (dup : Article -> bool) (articles : list Article) (st : Stats)
    : Stats :=
  match articles with
  | [] => st
  | a :: rest =>
      if dup a then skim dup rest (incr_skipped_duplicate (incr_fetched st))
      else incr_new (incr_fetched st)
  end.

(** The number of articles at the front of a list that are duplicates. *)
Fixpoint leading_duplicates (dup : Article -> bool) (articles : list Article) : Z :=
  match articles with
  | [] => 0
  | a :: rest => if dup a then 1 + leading_duplicates dup rest else 0
  end.

(** The category and the status of a score. *)
Definition category_of (score score_high score_medium : pyfloat) : string :=
  fst (fst (categorize score score_high score_medium stats0)).
Definition status_of (score score_high score_medium : pyfloat) : string :=
  snd (fst (categorize score score_high score_medium stats0)).

End Pipeline.

(** ** curator.py: the command line *)

Module Curator.

Import Pipeline.

(** The parsed arguments; the thresholds are read by [float], which takes
    any number, the infinities and NaN. *)
Record Args : Type := {
  dry_run : bool;
  max_articles : Z;
  score_high : Py.pyfloat;
  score_medium : Py.pyfloat;
  space : string
}.

(** How [main] ends: [sys.exit(code)], the return of [run_pipeline], or an
    exception printed and raised again. *)
Inductive outcome : Type :=
| SysExit (code : Z)
| Returned (st : Stats) (s : State)
| Propagated (e : Py.exn) (s : State).

(** [main]; [api_key] is [config.ANTHROPIC_API_KEY], read from the
    environment, [db] the database at [config.DB_PATH]. *)
Definition main (w : World) (api_key : option string) (args : Args)
    (db : Database.Conn) (fs : Output.files) : outcome :=
  match api_key with
  | None | Some "" => SysExit 1
  | Some key =>
      match run_pipeline w (space args) Config.CLAUDE_MODEL
              Config.CONTENT_STYLE (score_high args) (score_medium args)
              (max_articles args) (dry_run args) key Config.RSS_FEEDS db fs with
      | Ok st s => Returned st s
      | Raise e s => Propagated e s
      end
  end.

End Curator.

(** ** Vocabulary of the statements *)

Module Log.

Import Py Output.

(** The arguments of one call of [append_content], the category apart. *)
Record Entry : Type := {
  e_title : string;
  e_url : string;
  e_source : string;
  e_score : number;
  e_score_reason : pyval;
  e_now : string;
  e_tweet : pyval;
  e_thread : pyval;
  e_linkedin : pyval
}.

Definition render (w : World) (e : Entry) : string :=
  _format_entry w (e_title e) (e_url e) (e_source e) (e_score e)
    (e_score_reason e) (e_now e) (e_tweet e) (e_thread e) (e_linkedin e).

Definition append (w : World) (space_path category : string) (fs : files)
    (e : Entry) : files :=
  append_content w space_path fs category (e_title e) (e_url e) (e_source e)
    (e_score e) (e_score_reason e) (e_now e) (e_tweet e) (e_thread e)
    (e_linkedin e) true.

(** The file of a category. *)
Definition target (space_path category : string) : string :=
  path_join space_path (default "Content/Other.md" (filename_map !! category)).

(** The header block: the front matter up to and with the line of dashes
    that ends it. *)
Definition header_block (category : string) : string :=
  "---" +:+ nl +:+
  "title: " +:+ default "Content" (titles !! category) +:+ nl +:+
  "tags: #content #bitcoin" +:+ nl +:+
  "---" +:+ nl.

(** The header block without the line feed that ends it, and its lines. *)
Definition header_part (category : string) : string :=
  "---" +:+ nl +:+
  "title: " +:+ default "Content" (titles !! category) +:+ nl +:+
  "tags: #content #bitcoin" +:+ nl +:+
  "---".

Definition header_lines (category : string) : list string :=
  [ "---"; "title: " +:+ default "Content" (titles !! category);
    "tags: #content #bitcoin"; "---" ].

(** A text that ends with a line of dashes, as every entry does. *)
Definition closes (s : string) : Prop := exists x, s = x +:+ "---" +:+ nl.

(** The body of a log, from its entries as they were rendered, the newest
    first: the newest entry as it was written, then the older body as it was
    read back from the file. *)
Fixpoint body (rendered : list string) : string :=
  match rendered with
  | [] => ""
  | newest :: older =>
      match older with
      | [] => newest
      | _ :: _ => newest +:+ nl +:+ universal_newlines (body older)
      end
  end.

End Log.

(** ** A small world for examples *)

Module Sample.

Import Py Fetcher.

Definition dq : string := String "034" "".

(** A JSON object of three string-keyed fields, as text. *)
Definition object3 (k1 v1 k2 v2 k3 v3 : string) : string :=
  "{" +:+ dq +:+ k1 +:+ dq +:+ ": " +:+ v1 +:+ ", "
      +:+ dq +:+ k2 +:+ dq +:+ ": " +:+ v2 +:+ ", "
      +:+ dq +:+ k3 +:+ dq +:+ ": " +:+ v3 +:+ "}".

Definition quoted (s : string) : string := dq +:+ s +:+ dq.

Definition reply_score_5 : string :=
  object3 "score" "5" "reason" (quoted "solid report")
    "is_bitcoin_relevant" "true".

Definition reply_score_8_fenced : string :=
  "```json" +:+ nl +:+
  object3 "score" "8" "reason" (quoted "protocol news")
    "is_bitcoin_relevant" "true" +:+ nl +:+
  "```".

Definition reply_score_3_irrelevant : string :=
  object3 "score" "3" "reason" (quoted "altcoin noise")
    "is_bitcoin_relevant" "false".

Definition reply_not_json : string := "Sorry, I cannot rate this article.".

Definition reply_content : string :=
  object3 "tweet" (quoted "Lightning keeps growing.")
    "thread" (quoted "1/ Lightning keeps growing.")
    "linkedin" (quoted "Adoption of the Lightning Network is growing.").

(** [json.loads] on the texts above; any other text is taken not to be
    JSON. *)
Definition loads (text : string) : exn + pyval :=
  if String.eqb text reply_score_5 then
    inr (PDict [("score", PInt 5); ("reason", PStr "solid report");
                 ("is_bitcoin_relevant", PBool true)])
  else if String.eqb text
            (object3 "score" "8" "reason" (quoted "protocol news")
               "is_bitcoin_relevant" "true") then
    inr (PDict [("score", PInt 8); ("reason", PStr "protocol news");
                 ("is_bitcoin_relevant", PBool true)])
  else if String.eqb text reply_score_3_irrelevant then
    inr (PDict [("score", PInt 3); ("reason", PStr "altcoin noise");
                 ("is_bitcoin_relevant", PBool false)])
  else if String.eqb text reply_content then
    inr (PDict [("tweet", PStr "Lightning keeps growing.");
                 ("thread", PStr "1/ Lightning keeps growing.");
                 ("linkedin", PStr "Adoption of the Lightning Network is growing.")])
  else inl JSONDecodeError.

Definition lightning : Article :=
  {| url := "https://example.org/lightning";
     title := "Lightning Network adoption grows";
     summary := "More nodes, more channels.";
     source := "Example News";
     published_at := Some "2025-01-01T00:00:00" |}.

Definition taproot : Article :=
  {| url := "https://example.org/taproot";
     title := "Taproot usage rises";
     summary := "Script-path spends are up.";
     source := "Example News";
     published_at := None |}.

Definition memecoin : Article :=
  {| url := "https://example.org/memecoin";
     title := "Memecoin of the week";
     summary := "To the moon.";
     source := "Example News";
     published_at := None |}.

Definition garbled : Article :=
  {| url := "https://example.org/garbled";
     title := "An article the model balks at";
     summary := "";
     source := "Example News";
     published_at := None |}.

(** The model answers by the title of the article. *)
Definition reply (n : nat) (r : request) : string :=
  match r with
  | ScoreRequest _ _ t _ _ =>
      if String.eqb t (title lightning) then reply_score_5
      else if String.eqb t (title taproot) then reply_score_8_fenced
      else if String.eqb t (title memecoin) then reply_score_3_irrelevant
      else reply_not_json
  | GenerateRequest _ _ _ _ _ _ _ => reply_content
  end.

Definition feed (feed_url : string) : list Article :=
  if String.eqb feed_url "https://bitcoinmagazine.com/.rss/full/"
  then [lightning; taproot]
  else if String.eqb feed_url "https://bitcoinist.com/feed/"
  then [taproot; memecoin; garbled]
  else [].

(** The text of a float, for the values of the examples. *)
Definition float_text (f : pyfloat) : string :=
  match f with
  | Finite q => str_of_int (Qnum q / Zpos (Qden q)) +:+ ".0"
  | PosInf => "inf"
  | NegInf => "-inf"
  | NaN => "nan"
  end.

(** A home directory for [~]. *)
Definition expand (p : string) : string :=
  match p with
  | String "~" rest =>
      if String.prefix "/" rest || String.eqb rest ""
      then "/home/curator" +:+ rest else p
  | _ => p
  end.

(** A world with other answers of the decoder and of the model, and another
    file system. *)
Definition world_with (loads : string -> exn + pyval)
    (reply : nat -> request -> string) (fault : Z -> option io_fault) : World :=
  {| json_loads := loads;
     float_of_str := fun _ => None;
     py_repr := fun v =>
       match v with
       | PFloat f => float_text f
       | _ => "[...]"
       end;
     sha256_hexdigest := String.rev;
     fetch_feed := feed;
     messages_create := reply;
     utcnow_isoformat := fun _ => "2025-01-02T03:04:05.000006";
     current_timestamp := fun _ => "2025-01-02 03:04:05";
     now_strftime := fun _ => "2025-01-02 04:04";
     slice_is_hashable := false;
     sqlite_real_text := float_text;
     expanduser := expand;
     fs_fault := fault |}.

Definition world : World := world_with loads reply (fun _ => None).


(** Thresholds in the wrong order on the command line. *)
Definition ill_ordered : Curator.Args :=
  {| Curator.dry_run := true;
     Curator.max_articles := 20;
     Curator.score_high := Finite 4;
     Curator.score_medium := Finite 7;
     Curator.space := "notes" |}.

(** Two calls of [append_content]. *)
Definition entry1 : Log.Entry :=
  {| Log.e_title := "Lightning Network adoption grows";
     Log.e_url := "https://example.org/lightning";
     Log.e_source := "Example News";
     Log.e_score := NFloat (Finite 8);
     Log.e_score_reason := PStr "protocol news";
     Log.e_now := "2025-01-02 04:04";
     Log.e_tweet := PStr "Lightning keeps growing.";
     Log.e_thread := PNone;
     Log.e_linkedin := PNone |}.

Definition entry2 : Log.Entry :=
  {| Log.e_title := "Taproot usage rises";
     Log.e_url := "https://example.org/taproot";
     Log.e_source := "Example News";
     Log.e_score := NFloat (Finite 7);
     Log.e_score_reason := PStr "on-chain data";
     Log.e_now := "2025-01-02 05:04";
     Log.e_tweet := PNone;
     Log.e_thread := PNone;
     Log.e_linkedin := PNone |}.

(** The state in which a run starts on an empty database and no file. *)
Definition start : Pipeline.State :=
  {| Pipeline.stats := Pipeline.stats0;
     Pipeline.processed := 0;
     Pipeline.conn := Database.empty_db;
     Pipeline.disk := ∅;
     Pipeline.calls := [] |}.

End Sample.

Module Run.

Import Database Pipeline.

(** A row whose score and category are stored: the status is one of the
    three, and the score is a number, or NULL for a score that was NaN, which
    goes with the status "archived". *)
Definition settled (row : ArticleRow) : Prop :=
  (art_status row = "ready" \/ art_status row = "review"
   \/ art_status row = "archived")
  /\ art_score row <> Some Py.NaN
  /\ (art_score row = None -> art_status row = "archived").

(** What the column [score] holds of a score: NaN is stored as NULL. *)
Definition stored_score (f : Py.pyfloat) : option Py.pyfloat :=
  match f with Py.NaN => None | _ => Some f end.

(** What the column [content] holds of a variant that can be stored. *)
Definition stored_text (w : World) (v : Py.pyval) : Py.pyval :=
  match bind_value v with
  | inr v' => as_text w v'
  | inl _ => Py.PNone
  end.


(** What a content row says: the article, the content type, the content. *)
Definition payload (row : ContentRow) : Z * string * Py.pyval :=
  (gc_article_id row, gc_content_type row, gc_content row).

(** The three logs of a space. *)
Definition is_log (space_path p : string) : Prop :=
  p = Log.target space_path "ready" \/ p = Log.target space_path "review"
  \/ p = Log.target space_path "archive".

(** The articles that were put in a category. *)
Definition categorized (st : Stats) : Z := ready st + review st + archive st.

End Run.

(** ** fetcher.py: cleaning a summary *)

Module Html.

Import Py.

(** [re.sub(r'<[^>]+>', ' ', text)], read from left to right. [pending] holds
    the text of a tag that has begun and not yet ended: the [<] and what came
    after it, in which there is no [>]. A [<] begins a tag when the next
    character is not [>]; the tag ends at the first [>] and is replaced by a
    space; a tag that never ends is no tag, and the text stays. *)
Fixpoint sub_tags_from (pending : option string) (s : string) : string :=
  match s with
  | "" => match pending with Some buf => buf | None => "" end
  | String c t =>
      match pending with
      | Some buf =>
          if Ascii.eqb c ">" then String " " (sub_tags_from None t)
          else sub_tags_from (Some (buf +:+ String c "")) t
      | None =>
          if Ascii.eqb c "<" then
            match t with
            | "" => String c ""
            | String c' _ =>
                if Ascii.eqb c' ">" then String c (sub_tags_from None t)
                else sub_tags_from (Some (String c "")) t
            end
          else String c (sub_tags_from None t)
      end
  end.

Definition sub_tags (text : string) : string := sub_tags_from None text.

(** [re.sub(r'\s+', ' ', text)]: every run of whitespace becomes one space;
    [in_run] says that the character before was whitespace. *)
Fixpoint sub_spaces_from (in_run : bool) (s : string) : string :=
  match s with
  | "" => ""
  | String c t =>
      if isspace c then
        if in_run then sub_spaces_from true t
        else String " " (sub_spaces_from true t)
      else String c (sub_spaces_from false t)
  end.

Definition sub_spaces (text : string) : string := sub_spaces_from false text.

(** [s.replace(old, new)] for a non-empty [old]: the occurrences of [old] are
    replaced from left to right, [skip] characters of a replaced occurrence
    being still to pass over. *)
Fixpoint replace_from (old new : string) (skip : nat) (s : string) : string :=
  match s with
  | "" => ""
  | String c t =>
      match skip with
      | S k => replace_from old new k t
      | O =>
          if String.prefix old s
          then new +:+ replace_from old new (String.length old - 1) t
          else String c (replace_from old new 0 t)
      end
  end.

Definition replace (old new s : string) : string := replace_from old new 0 s.

(** [_strip_html] *)
Definition _strip_html (text : string) : string :=
  let clean := sub_tags text in
  let clean := strip (sub_spaces clean) in
  let clean := replace "&amp;" "&" clean in
  let clean := replace "&lt;" "<" clean in
  let clean := replace "&gt;" ">" clean in
  let clean := replace "&quot;" (String "034" "") clean in
  let clean := replace "&#39;" "'" clean in
  let clean := replace "&nbsp;" " " clean in
  clean.

End Html.

(** ** More replies for examples *)

Module Demo.

Import Py.

Definition reply_empty_object : string := "{}".

Definition reply_null_score : string :=
  "{" +:+ Sample.quoted "score" +:+ ": null, "
      +:+ Sample.quoted "reason" +:+ ": " +:+ Sample.quoted "no idea" +:+ "}".

Definition reply_score_15 : string :=
  "{" +:+ Sample.quoted "score" +:+ ": 15}".

Definition reply_score_word : string :=
  "{" +:+ Sample.quoted "score" +:+ ": " +:+ Sample.quoted "high" +:+ "}".

(** A score of 401 digits: 1 followed by 400 zeros. *)
Definition reply_score_huge : string :=
  "{" +:+ Sample.quoted "score" +:+ ": 1"
      +:+ string_of_list_ascii (repeat "0"%char 400) +:+ "}".

(** A relevance flag that is a string. *)
Definition reply_flag_word : string :=
  Sample.object3 "score" "8" "reason" (Sample.quoted "protocol news")
    "is_bitcoin_relevant" (Sample.quoted "false").

(** A score that is no number. *)
Definition reply_score_nan : string :=
  Sample.object3 "score" "NaN" "reason" (Sample.quoted "hard to say")
    "is_bitcoin_relevant" "true".

(** JSON that is no object. *)
Definition reply_list : string := "[1, 2]".

(** [json.loads] on these texts and on those of [Sample]. *)
Definition loads (text : string) : exn + pyval :=
  if String.eqb text reply_empty_object then inr (PDict [])
  else if String.eqb text reply_null_score then
    inr (PDict [("score", PNone); ("reason", PStr "no idea")])
  else if String.eqb text reply_score_15 then inr (PDict [("score", PInt 15)])
  else if String.eqb text reply_score_word then
    inr (PDict [("score", PStr "high")])
  else if String.eqb text reply_score_huge then
    inr (PDict [("score", PInt (10 ^ 400))])
  else if String.eqb text reply_flag_word then
    inr (PDict [("score", PInt 8); ("reason", PStr "protocol news");
                ("is_bitcoin_relevant", PStr "false")])
  else if String.eqb text reply_score_nan then
    inr (PDict [("score", PFloat NaN); ("reason", PStr "hard to say");
                ("is_bitcoin_relevant", PBool true)])
  else if String.eqb text reply_list then inr (PList [PInt 1; PInt 2])
  else Sample.loads text.

Definition world : World :=
  Sample.world_with loads Sample.reply (fun _ => None).



(** A model whose scores are NaN. *)
Definition not_a_number : World :=
  Sample.world_with loads
    (fun _ r =>
       match r with
       | ScoreRequest _ _ _ _ _ => reply_score_nan
       | GenerateRequest _ _ _ _ _ _ _ => Sample.reply_content
       end)
    (fun _ => None).



(** A file that this program did not write. *)
Definition foreign_notes : string :=
  "My reading list" +:+ nl +:+ "- nothing yet" +:+ nl.

(** The database after one insertion. *)
Definition one_row : Database.Conn :=
  match
    Database.insert_article Sample.world Database.empty_db 0
      "https://example.org/lightning" "Lightning Network adoption grows"
      "Example News" None
  with
  | inr (_, c) => c
  | inl _ => Database.empty_db
  end.


End Demo.

(** * Properties *)

#[local] Arguments String.append !_ _ / : simpl nomatch.

(** ** Strings *)

Section Strings.

Import Py.

Lemma app_assoc_s (a b c : string) : (a +:+ b) +:+ c = a +:+ (b +:+ c).
Proof. induction a as [|x a IH]; simpl; [reflexivity | now f_equal]. Qed.

Lemma split_nonempty (sep : ascii) (s : string) :
  exists l ls, split sep s = l :: ls.
Proof.
  induction s as [|c s [l [ls IH]]]; simpl; [now eexists _, _ |].
  destruct (Ascii.eqb c sep); [now eexists _, _ |].
  rewrite IH. now eexists _, _.
Qed.

Lemma split_app_sep (sep : ascii) (a b : string) :
  split sep (a +:+ String sep b) = (split sep a ++ split sep b)%list.
Proof.
  induction a as [|c a IH]; simpl.
  - now rewrite Ascii.eqb_refl.
  - destruct (Ascii.eqb c sep); [now rewrite IH |].
    rewrite IH. destruct (split_nonempty sep a) as [l [ls ->]]. reflexivity.
Qed.

Lemma join_split (sep : ascii) (s : string) :
  join (String sep "") (split sep s) = s.
Proof.
  induction s as [|c s IH]; simpl; [reflexivity |].
  destruct (Ascii.eqb_spec c sep) as [-> | Hne].
  - destruct (split_nonempty sep s) as [l [ls E]]. rewrite E in *.
    simpl. f_equal. exact IH.
  - destruct (split_nonempty sep s) as [l [ls E]]. rewrite E in *.
    destruct ls; simpl in *; now rewrite <- IH.
Qed.

Lemma rstrip_app (a b : string) :
  rstrip b <> "" -> rstrip (a +:+ b) = a +:+ rstrip b.
Proof.
  intros Hb. induction a as [|c a IH]; simpl; [reflexivity |].
  rewrite IH. destruct (a +:+ rstrip b) eqn:E; [| reflexivity].
  destruct a; simpl in E; [contradiction | discriminate].
Qed.

(** Reading back leaves the text after a character other than a line feed
    alone: only a carriage return and the line feed after it are merged. *)
Lemma universal_newlines_app (a : string) (c : ascii) (b : string) :
  c <> LF ->
  universal_newlines (a +:+ String c b)
  = universal_newlines a +:+ universal_newlines (String c b).
Proof.
  intros Hc.
  assert (H : forall a,
    universal_newlines (a +:+ String c b)
    = universal_newlines a +:+ universal_newlines (String c b)
    /\ forall d, universal_newlines (String d a +:+ String c b)
       = universal_newlines (String d a) +:+ universal_newlines (String c b)).
  { clear a. induction a as [|x a [IH1 IH2]].
    - split; [reflexivity |]. intros d. cbn [String.append universal_newlines].
      destruct (Ascii.eqb d CR); [| reflexivity].
      destruct (Ascii.eqb_spec c LF); [contradiction | reflexivity].
    - split; [apply IH2 |]. intros d.
      change (String d (String x a) +:+ String c b)
        with (String d (String x (a +:+ String c b))).
      cbn [universal_newlines]. fold universal_newlines.
      destruct (Ascii.eqb d CR).
      + destruct (Ascii.eqb x LF).
        * simpl. f_equal. exact IH1.
        * simpl. f_equal. exact (IH2 x).
      + simpl. f_equal. exact (IH2 x). }
  apply H.
Qed.

End Strings.

(** ** The markdown log (output.py) *)

Section LogFile.

Import Py Output Log.

Lemma titles_cases (category : string) :
  let T := default "Content" (titles !! category) in
  T = "Ready to Post" \/ T = "Needs Review" \/ T = "Archive" \/ T = "Content".
Proof.
  unfold titles. cbn zeta.
  rewrite !lookup_insert, lookup_empty.
  repeat case_decide; simpl; auto.
Qed.

Lemma get_header_block (category : string) :
  _get_header category = header_block category +:+ nl.
Proof.
  unfold _get_header, header_block.
  destruct (titles_cases category) as [-> | [-> | [-> | ->]]]; reflexivity.
Qed.

Lemma header_block_part (category B : string) :
  header_block category +:+ B = header_part category +:+ String LF B.
Proof.
  unfold header_block, header_part.
  destruct (titles_cases category) as [-> | [-> | [-> | ->]]]; reflexivity.
Qed.

Lemma header_part_lines (category : string) :
  split LF (header_part category) = header_lines category
  /\ join nl (header_lines category) = header_part category
  /\ (forall rest, find_header_end 0 (header_lines category ++ rest) = 4%nat)
  /\ (forall B, String.eqb (header_part category +:+ B) "" = false).
Proof.
  unfold header_lines, header_part.
  destruct (titles_cases category) as [-> | [-> | [-> | ->]]];
    repeat split; reflexivity.
Qed.

(** With the header block on top, the loop finds the end of the header on
    line 3, and the entry goes between the header block and the rest. *)
Lemma spliced_under_header (category B entry : string) :
  spliced category (header_block category +:+ B) entry true
  = strip (header_block category +:+ entry +:+ nl +:+ B) +:+ nl.
Proof.
  destruct (header_part_lines category) as (Hs & Hj & Hf & He).
  unfold spliced. rewrite !header_block_part, He, split_app_sep, Hs, Hf.
  change (take 4 (header_lines category ++ split LF B)) with (header_lines category).
  change (drop 4 (header_lines category ++ split LF B)) with (split LF B).
  rewrite Hj. change nl with (String LF "") at 3. rewrite join_split.
  reflexivity.
Qed.

Lemma render_closes (w : World) (e : Entry) : closes (render w e).
Proof.
  unfold closes, render, _format_entry. cbn zeta.
  eexists. rewrite <- app_assoc_s. reflexivity.
Qed.

Lemma universal_newlines_closes (s : string) :
  closes s -> closes (universal_newlines s).
Proof.
  intros [x ->]. exists (universal_newlines x).
  change (x +:+ "---" +:+ nl) with (x +:+ String "-" ("--" +:+ nl)).
  rewrite universal_newlines_app by discriminate. reflexivity.
Qed.

Lemma body_closes (rendered : list string) :
  rendered <> [] -> Forall closes rendered -> closes (body rendered).
Proof.
  intros Hne Hall. destruct Hall as [|r older Hr Hold]; [contradiction |].
  clear Hne. revert r Hr. induction Hold as [|o older' Ho Hold' IH]; intros r Hr.
  - exact Hr.
  - change (body (r :: o :: older'))
      with (r +:+ nl +:+ universal_newlines (body (o :: older'))).
    destruct (universal_newlines_closes _ (IH o Ho)) as [y ->].
    exists (r +:+ nl +:+ y). now rewrite !app_assoc_s.
Qed.

(** What [strip] leaves of a log: the header block starts with a dash and
    the text ends with a dash before the trailing blanks. *)
Lemma strip_log (category x ws : string) :
  rstrip (String "-" ws) = "-" ->
  strip (header_block category +:+ x +:+ String "-" ws)
  = header_block category +:+ x +:+ "-".
Proof.
  intros Hws. unfold strip.
  rewrite <- app_assoc_s, rstrip_app by (rewrite Hws; discriminate).
  rewrite Hws, app_assoc_s. unfold header_block. simpl.
  reflexivity.
Qed.

Lemma spliced_first (category entry : string) :
  closes entry -> spliced category "" entry true = header_block category +:+ entry.
Proof.
  intros [x ->].
  change (spliced category "" (x +:+ "---" +:+ nl) true)
    with (spliced category (_get_header category) (x +:+ "---" +:+ nl) true).
  rewrite get_header_block, spliced_under_header.
  replace (header_block category +:+ (x +:+ "---" +:+ nl) +:+ nl +:+ nl)
    with (header_block category +:+ (x +:+ "--") +:+ String "-" (nl +:+ nl +:+ nl))
    by (now rewrite !app_assoc_s).
  rewrite strip_log by reflexivity.
  now rewrite !app_assoc_s.
Qed.

Lemma spliced_next (category B entry : string) :
  closes entry -> closes B ->
  spliced category (header_block category +:+ B) entry true
  = header_block category +:+ entry +:+ nl +:+ B.
Proof.
  intros _ [y ->]. rewrite spliced_under_header.
  replace (header_block category +:+ entry +:+ nl +:+ y +:+ "---" +:+ nl)
    with (header_block category +:+ (entry +:+ nl +:+ y +:+ "--") +:+ String "-" nl)
    by (now rewrite !app_assoc_s).
  rewrite strip_log by reflexivity.
  now rewrite !app_assoc_s.
Qed.

Lemma read_back (category B : string) :
  universal_newlines (header_block category +:+ B)
  = header_block category +:+ universal_newlines B.
Proof.
  unfold header_block.
  destruct (titles_cases category) as [-> | [-> | [-> | ->]]]; reflexivity.
Qed.

Section Appends.

Variable w : World.
Variables space_path category : string.

Lemma append_lookup (fs : files) (e : Entry) :
  append w space_path category fs e !! target space_path category
  = Some (spliced category (_read_existing fs (target space_path category))
            (render w e) true).
Proof. unfold append, append_content. apply lookup_insert_eq. Qed.

Lemma append_other (fs : files) (e : Entry) (p : string) :
  p <> target space_path category ->
  append w space_path category fs e !! p = fs !! p.
Proof.
  intros Hp. unfold append, append_content. now apply lookup_insert_ne.
Qed.

Lemma append_new (fs : files) (e : Entry) :
  fs !! target space_path category = None ->
  append w space_path category fs e !! target space_path category
  = Some (header_block category +:+ render w e).
Proof.
  intros Hnone. rewrite append_lookup. unfold _read_existing.
  rewrite Hnone, spliced_first by apply render_closes. reflexivity.
Qed.

Lemma append_old (fs : files) (e : Entry) (old : string) :
  fs !! target space_path category = Some (header_block category +:+ old) ->
  closes old ->
  append w space_path category fs e !! target space_path category
  = Some (header_block category +:+ render w e +:+ nl +:+ universal_newlines old).
Proof.
  intros Hsome Hold. rewrite append_lookup. unfold _read_existing.
  rewrite Hsome, read_back, spliced_next;
    [reflexivity | apply render_closes | now apply universal_newlines_closes].
Qed.

(** The file after a series of appends that started without it. *)
Lemma log_closed_form (fs : files) (es : list Entry) :
  fs !! target space_path category = None ->
  es <> [] ->
  foldl (append w space_path category) fs es !! target space_path category
  = Some (header_block category +:+ body (map (render w) (rev es))).
Proof.
  intros Hnone. induction es as [|e es' IH] using rev_ind; [contradiction |].
  intros _. rewrite foldl_app, rev_app_distr. cbn [foldl rev app map].
  destruct es' as [|e0 es0].
  - apply append_new. exact Hnone.
  - assert (Hne : e0 :: es0 <> []) by discriminate.
    specialize (IH Hne).
    assert (Hcl : closes (body (map (render w) (rev (e0 :: es0))))).
    { apply body_closes.
      - intros E. apply (f_equal (@length _)) in E.
        rewrite length_map, length_rev in E. discriminate.
      - apply Forall_forall. intros r Hr. apply list_elem_of_In, in_map_iff in Hr.
        destruct Hr as [e' [<- _]]. apply render_closes. }
    rewrite (append_old _ _ _ IH Hcl).
    destruct (map (render w) (rev (e0 :: es0))) as [|r rs] eqn:E; [| reflexivity].
    apply (f_equal (@length _)) in E.
    rewrite length_map, length_rev in E. discriminate.
Qed.

End Appends.

End LogFile.

Section LogTheorems.

Import Py Output Log.

Variable w : World.
Variables space_path category : string.

(** C6. For the file of any category: the first append, to a file that does
    not exist, writes the header block (the front matter, ended by its line
    of dashes) once, and the entry after it. Every later append keeps that
    one header block on top and puts the new entry right after the line of
    dashes that ends it, before everything that was in the body before (as
    it is read back from the file), so the newest entry is the first of the
    body. *)
Theorem header_once_newest_first (fs : files) (es : list Entry) (e : Entry) :
  fs !! target space_path category = None ->
  let log := foldl (append w space_path category) fs in
  _get_header category = header_block category +:+ nl
  /\ log [e] !! target space_path category
     = Some (header_block category +:+ render w e)
  /\ (es <> [] ->
      log es !! target space_path category
      = Some (header_block category +:+ body (map (render w) (rev es)))
      /\ log (es ++ [e])%list !! target space_path category
         = Some (header_block category +:+ render w e +:+ nl
                 +:+ universal_newlines (body (map (render w) (rev es))))).
Proof.
  intros Hnone log. split; [apply get_header_block |]. split.
  - apply (log_closed_form w space_path category fs [e] Hnone). discriminate.
  - intros Hne. split; [now apply log_closed_form |].
    subst log. rewrite (log_closed_form w space_path category fs (es ++ [e])%list Hnone)
      by (destruct es; discriminate).
    rewrite rev_app_distr. cbn [rev app map body].
    destruct (map (render w) (rev es)) as [|r0 rs] eqn:E; [| reflexivity].
    apply (f_equal (@length _)) in E. rewrite length_map, length_rev in E.
    destruct es; [contradiction | discriminate].
Qed.

(** C10. A category other than "ready", "review" and "archive" does not make
    [append_content] fail: the entry goes to Content/Other.md under the
    space path and to no other file, under a header block whose title is
    "Content", by the same rule as for the three categories: the header
    block once, the newest entry right after it. *)
Theorem unknown_category_goes_to_other (fs : files) (es : list Entry)
    (e : Entry) :
  category <> "ready" -> category <> "review" -> category <> "archive" ->
  let other := path_join space_path "Content/Other.md" in
  let log := foldl (append w space_path category) fs in
  target space_path category = other
  /\ header_block category
     = "---" +:+ nl +:+ "title: Content" +:+ nl +:+
       "tags: #content #bitcoin" +:+ nl +:+ "---" +:+ nl
  /\ (forall p, p <> other -> append w space_path category fs e !! p = fs !! p)
  /\ (fs !! other = None ->
      log [e] !! other = Some (header_block category +:+ render w e)
      /\ (es <> [] ->
          log (es ++ [e])%list !! other
          = Some (header_block category +:+ render w e +:+ nl
                  +:+ universal_newlines (body (map (render w) (rev es)))))).
Proof.
  intros H1 H2 H3 other log.
  assert (Ht : target space_path category = other).
  { unfold target, filename_map.
    rewrite !lookup_insert_ne, lookup_empty by congruence. reflexivity. }
  split; [exact Ht |]. split.
  { unfold header_block, titles.
    rewrite !lookup_insert_ne, lookup_empty by congruence. reflexivity. }
  split.
  { intros p Hp. apply append_other. now rewrite Ht. }
  intros Hnone. rewrite <- Ht in Hnone |- *. split.
  - apply (log_closed_form w space_path category fs [e] Hnone). discriminate.
  - intros Hne. subst log.
    rewrite (log_closed_form w space_path category fs (es ++ [e])%list Hnone)
      by (destruct es; discriminate).
    rewrite rev_app_distr. cbn [rev app map body].
    destruct (map (render w) (rev es)) as [|r0 rs] eqn:E; [| reflexivity].
    apply (f_equal (@length _)) in E. rewrite length_map, length_rev in E.
    destruct es; [contradiction | discriminate].
Qed.

End LogTheorems.

(** ** The orchestrator (pipeline.py) *)

(** One step of a computation of the pipeline. *)
Ltac step_m :=
  unfold Pipeline.bind, Pipeline.modify, Pipeline.gets, Pipeline.ret,
    Pipeline.raise;
  cbn [Pipeline.conn Pipeline.processed Pipeline.stats Pipeline.disk
       Pipeline.calls Pipeline.with_stats Pipeline.with_conn
       Pipeline.with_disk Pipeline.with_call Pipeline.with_processed id
       Pipeline.final negb].

Section Numbers.

Import Py.


Lemma fle_trans (a b c : pyfloat) :
  fle a b = true -> fle b c = true -> fle a c = true.
Proof.
  destruct a, b, c; cbn; try discriminate; try reflexivity.
  rewrite !Qle_bool_iff. apply Qle_trans.
Qed.

Lemma fle_nan (a b : pyfloat) :
  fle a b = true -> is_nan a = false /\ is_nan b = false.
Proof. destruct a, b; cbn; try discriminate; now split. Qed.

End Numbers.

Section Orchestrator.

Import Py Fetcher Database Scorer Generator Output Pipeline.

Variable w : World.
Variables (silverbullet_space model style_guide : string).
Variables (score_high score_medium : pyfloat).
Variable max_articles : Z.

Abbreviation process dry :=
  (process w silverbullet_space model style_guide score_high score_medium
     max_articles dry).
Abbreviation for_each dry :=
  (for_each w silverbullet_space model style_guide score_high score_medium
     max_articles dry).

Lemma process_duplicate (dry : bool) (a : Article) (s : State) :
  article_exists w (conn s) (url a) = true ->
  process dry a s
  = Ok Continue (with_stats incr_skipped_duplicate (with_stats incr_fetched s)).
Proof.
  intros H. unfold Pipeline.process, Pipeline.bind, modify, gets, ret.
  cbn [conn with_stats id]. rewrite H. reflexivity.
Qed.

Lemma process_over_budget (dry : bool) (a : Article) (s : State) :
  article_exists w (conn s) (url a) = false ->
  (max_articles <= processed s)%Z ->
  process dry a s = Ok Break (with_stats incr_new (with_stats incr_fetched s)).
Proof.
  intros H Hmax. unfold Pipeline.process, Pipeline.bind, modify, gets, ret.
  cbn [conn processed with_stats id]. rewrite H.
  destruct (Z.leb_spec max_articles (processed s)); [reflexivity | lia].
Qed.

Lemma insert_article_fresh (c : Conn) (k : Z) (a : Article) :
  article_exists w c (url a) = false ->
  let i := next_rowid (map art_id (articles c)) (seq_articles c) in
  insert_article w c k (url a) (title a) (source a) (published_at a)
  = inr (i,
         {| articles :=
              (articles c
               ++ [new_row w i k (url a) (title a) (source a) (published_at a)])%list;
            generated_content := generated_content c;
            seq_articles := i;
            seq_generated_content := seq_generated_content c |}).
Proof.
  unfold article_exists, insert_article. intros ->. reflexivity.
Qed.

(** The score [score_article] returns is a float, or the integer 1 of the
    value for a reply that cannot be read: it can always be bound, and the
    column [score] stores it as it is, NaN as NULL. *)
Lemma parse_score_bound (text : string) (sr : ScoreResult) :
  parse_score w text = inr sr ->
  exists v,
    bind_value (of_number (score sr)) = inr v
    /\ as_real v = Run.stored_score (num_val (score sr)).
Proof.
  assert (Hfailed : exists v,
            bind_value (of_number (score parse_failed)) = inr v
            /\ as_real v = Run.stored_score (num_val (score parse_failed))).
  { eexists. split; reflexivity. }
  assert (Hfloat : forall f rsn flag, exists v,
            bind_value (of_number (score {| score := NFloat f; reason := rsn;
                                            is_bitcoin_relevant := flag |}))
            = inr v
            /\ as_real v = Run.stored_score f).
  { intros f rsn flag. destruct f; eexists; split; reflexivity. }
  unfold parse_score.
  destruct (json_loads w text) as [e | v].
  { destruct (caught e); [intros [= <-]; exact Hfailed | discriminate]. }
  destruct v; try discriminate.
  destruct (py_float w (dict_get kv "score" (PInt 1))) as [e | f].
  { destruct (caught e); [intros [= <-]; exact Hfailed | discriminate]. }
  intros [= <-]. apply Hfloat.
Qed.

Lemma score_article_bound (n : nat) (title summary source : string)
    (sr : ScoreResult) :
  score_article w n title summary source model = inr sr ->
  exists v,
    bind_value (of_number (score sr)) = inr v
    /\ as_real v = Run.stored_score (num_val (score sr)).
Proof. unfold score_article. apply parse_score_bound. Qed.

Lemma store_if_frame (article_id : Z) (content_type : string) (v : pyval)
    (s : State) :
  let t := final (store_if w article_id content_type v s) in
  articles (conn t) = articles (conn s) /\ seq_articles (conn t) = seq_articles (conn s)
  /\ stats t = stats s /\ processed t = processed s
  /\ disk t = disk s /\ calls t = calls s.
Proof.
  unfold store_if. destruct (truthy v); [| now step_m].
  step_m. unfold insert_content.
  destruct (bind_value v) as [e | v']; [now step_m |].
  destruct v'; now step_m.
Qed.

(** What [store_if] stores when it returns: a row for a value that counts as
    true, nothing otherwise. *)
Lemma store_if_ok (article_id : Z) (content_type : string) (v : pyval)
    (s s' : State) :
  store_if w article_id content_type v s = Ok tt s' ->
  exists rows,
    generated_content (conn s') = (generated_content (conn s) ++ rows)%list
    /\ map Run.payload rows
       = (if truthy v then [(article_id, content_type, Run.stored_text w v)]
          else []).
Proof.
  unfold store_if, Run.stored_text. destruct (truthy v).
  2: { step_m. intros [= <-]. exists []. now rewrite app_nil_r. }
  step_m. unfold insert_content.
  destruct (bind_value v) as [e | v']; [step_m; discriminate |].
  destruct v'; step_m; try discriminate; intros [= <-]; eexists;
    (split; [reflexivity |]); reflexivity.
Qed.

(** When [store_if] raises, nothing was stored. *)
Lemma store_if_raise (article_id : Z) (content_type : string) (v : pyval)
    (s s' : State) (e : exn) :
  store_if w article_id content_type v s = Raise e s' -> s' = s.
Proof.
  unfold store_if. destruct (truthy v); [| step_m; discriminate].
  step_m. unfold insert_content.
  destruct (bind_value v) as [e' | v']; [step_m; now intros [= _ <-] |].
  destruct v'; step_m; try discriminate; now intros [= _ <-].
Qed.

Abbreviation generate_and_store :=
  (generate_and_store w model style_guide score_medium).




(** Writing the entry: a dry run writes nothing; a run that writes puts the
    entry in the log of the category, under the expanded path, unless the
    file system fails. *)
Lemma write_output_dry (a : Article) (category : string) (sr : ScoreResult)
    (k : Z) (content : pyval * pyval * pyval) (s : State) :
  write_output w silverbullet_space true a category sr k content s = Ok tt s.
Proof. unfold write_output. now destruct content as [[tw th] li]. Qed.

Lemma write_output_wet (a : Article) (category : string) (sr : ScoreResult)
    (k : Z) (tw th li : pyval) (s : State) :
  write_output w silverbullet_space false a category sr k (tw, th, li) s
  = match fs_fault w k with
    | None =>
        Ok tt
          (with_disk
             (append_content w (expanduser w silverbullet_space) (disk s)
                category (title a) (url a) (source a) (score sr) (reason sr)
                (now_strftime w k) tw th li true) s)
    | Some f =>
        Raise (fault_exn f)
          (with_disk
             (match fault_left f with
              | None => disk s
              | Some partial =>
                  <[Log.target (expanduser w silverbullet_space) category
                    := partial]> (disk s)
              end) s)
    end.
Proof.
  unfold write_output, write_to_silverbullet. step_m.
  destruct (fs_fault w k); reflexivity.
Qed.


(** The state of the run once the score of an article is stored. *)
Lemma process_scored (dry : bool) (a : Article) (s : State) (sr : ScoreResult)
    (r : string) :
  article_exists w (conn s) (url a) = false ->
  (processed s < max_articles)%Z ->
  score_article w (length (calls s)) (title a) (summary a) (source a) model
  = inr sr ->
  reason sr = PStr r ->
  let sc := num_val (score sr) in
  let i := next_rowid (map art_id (articles (conn s))) (seq_articles (conn s)) in
  let k := (processed s + 1)%Z in
  let cat := categorize sc score_high score_medium
               (incr_scored (incr_new (incr_fetched (stats s)))) in
  let mid :=
    {| stats := snd cat;
       processed := k;
       conn :=
         {| articles :=
              map (set_score i (Run.stored_score sc) (PStr r) (snd (fst cat)))
                (articles (conn s)
                 ++ [new_row w i k (url a) (title a) (source a) (published_at a)])%list;
            generated_content := generated_content (conn s);
            seq_articles := i;
            seq_generated_content := seq_generated_content (conn s) |};
       disk := disk s;
       calls :=
         (calls s ++ [score_request (title a) (summary a) (source a) model])%list
    |} in
  process dry a s
  = Pipeline.bind (generate_and_store a i sr (S (length (calls s))))
      (fun content =>
         Pipeline.bind
           (write_output w silverbullet_space dry a (fst (fst cat)) sr k content)
           (fun _ => ret Continue)) mid.
Proof.
  intros Hnew Hbudget Hscore Hreason. cbn zeta.
  destruct (score_article_bound _ _ _ _ _ Hscore) as (v & Hb & Hv).
  unfold Pipeline.process. step_m. rewrite Hnew.
  destruct (Z.leb_spec max_articles (processed s)); [lia |].
  rewrite (insert_article_fresh _ _ _ Hnew). cbn zeta. step_m.
  rewrite Hscore. unfold slice_check. rewrite Hreason. step_m.
  destruct (categorize (num_val (score sr)) score_high score_medium
              (incr_scored (incr_new (incr_fetched (stats s)))))
    as [[category status] st] eqn:Hcat.
  step_m. unfold update_score. rewrite Hb.
  cbn [bind_value as_text articles generated_content
    seq_articles seq_generated_content fst snd]. rewrite Hv. step_m.
  reflexivity.
Qed.



End Orchestrator.

(** *** The categories *)

Section Categories.

Import Py Fetcher Database Scorer Generator Output Pipeline.

Variable w : World.
Variables (silverbullet_space model style_guide : string).
Variables (score_high score_medium : pyfloat).
Variable max_articles : Z.

Abbreviation process dry :=
  (process w silverbullet_space model style_guide score_high score_medium
     max_articles dry).
Abbreviation for_each dry :=
  (for_each w silverbullet_space model style_guide score_high score_medium
     max_articles dry).
Abbreviation generate_and_store :=
  (generate_and_store w model style_guide score_medium).

(** The thresholds: which scores give which category. *)
Lemma category_bands (sc : pyfloat) :
  let category := category_of sc score_high score_medium in
  (category = "ready" <-> fle score_high sc = true)
  /\ (category = "review"
      <-> fle score_medium sc = true /\ fle score_high sc = false)
  /\ (category = "archive"
      <-> fle score_medium sc = false /\ fle score_high sc = false)
  /\ (category = "ready" \/ category = "review" \/ category = "archive")
  /\ status_of sc score_high score_medium
     = (if String.eqb category "archive" then "archived" else category).
Proof.
  unfold category_of, status_of, categorize.
  destruct (fle score_high sc) eqn:Hh;
    [| destruct (fle score_medium sc) eqn:Hm]; cbn [fst snd];
    repeat split; try discriminate; auto; intros [H1 H2]; discriminate.
Qed.



End Categories.


(** *** The test for generating content *)

Section Gate.

Import Py Fetcher Database Scorer Generator Output Pipeline.

Variable w : World.
Variables (silverbullet_space model style_guide : string).
Variables (score_high score_medium : pyfloat).
Variable max_articles : Z.

Abbreviation process dry :=
  (process w silverbullet_space model style_guide score_high score_medium
     max_articles dry).
Abbreviation for_each dry :=
  (for_each w silverbullet_space model style_guide score_high score_medium
     max_articles dry).
Abbreviation generate_and_store :=
  (generate_and_store w model style_guide score_medium).
Abbreviation run_pipeline dry :=
  (run_pipeline w silverbullet_space model style_guide score_high score_medium
     max_articles dry).


End Gate.

Section Runs.

Import Py Fetcher Database Scorer Generator Output Pipeline.

Variable w : World.
Variables (silverbullet_space model style_guide : string).
Variables (score_high score_medium : pyfloat).
Variable max_articles : Z.

Abbreviation process dry :=
  (process w silverbullet_space model style_guide score_high score_medium
     max_articles dry).
Abbreviation for_each dry :=
  (for_each w silverbullet_space model style_guide score_high score_medium
     max_articles dry).
Abbreviation generate_and_store :=
  (generate_and_store w model style_guide score_medium).
Abbreviation run_pipeline dry :=
  (run_pipeline w silverbullet_space model style_guide score_high score_medium
     max_articles dry).

(** *** Duplicates *)









(** *** The budget *)

Lemma for_each_exhausted (dry : bool) (arts : list Article) (s : State) :
  (max_articles <= processed s)%Z ->
  for_each dry arts s
  = Ok tt (with_stats
             (skim (fun a => article_exists w (conn s) (url a)) arts) s).
Proof.
  intros Hmax. revert s Hmax. induction arts as [|a rest IH]; intros s Hmax.
  - destruct s as [st p c d cs]. reflexivity.
  - cbn [Pipeline.for_each skim]. unfold Pipeline.bind.
    destruct (article_exists w (conn s) (url a)) eqn:Hdup.
    + rewrite process_duplicate by exact Hdup.
      rewrite IH by exact Hmax. reflexivity.
    + rewrite process_over_budget by assumption. reflexivity.
Qed.

Lemma skim_counts (dup : Article -> bool) (arts : list Article) (st : Stats) :
  let st' := skim dup arts st in
  skipped_duplicate st' = (skipped_duplicate st + leading_duplicates dup arts)%Z
  /\ new st' = (new st + if forallb dup arts then 0 else 1)%Z
  /\ fetched st'
     = (fetched st + leading_duplicates dup arts
        + if forallb dup arts then 0 else 1)%Z
  /\ scored st' = scored st /\ generated st' = generated st
  /\ ready st' = ready st /\ review st' = review st /\ archive st' = archive st.
Proof.
  revert st. induction arts as [|a rest IH]; intros st; cbn zeta.
  - cbn. repeat split; lia.
  - cbn [skim leading_duplicates forallb]. destruct (dup a); cbn [andb].
    + destruct (IH (incr_skipped_duplicate (incr_fetched st)))
        as (H1 & H2 & H3 & H4 & H5 & H6 & H7 & H8).
      rewrite H1, H2, H3, H4, H5, H6, H7, H8. cbn. repeat split; lia.
    + cbn. repeat split; lia.
Qed.

(** C4, as the code has it. When the budget is used up ([processed] has
    reached [max_articles]), the next article that is not a duplicate ends
    the loop: it is counted as fetched and as new, it is not inserted, and
    the articles after it are not looked at. A run with [max_articles] at
    most 0 therefore inserts nothing, calls the model not at all and writes
    no file; it counts the duplicates in front of the first new article as
    fetched and skipped, and the first new article, if there is one, as
    fetched and as new. *)
Theorem budget_stops_the_run (dry : bool) (api_key : string)
    (feeds : list string) (db : Conn) (fs : files) :
  (forall a rest s,
      article_exists w (conn s) (url a) = false ->
      (max_articles <= processed s)%Z ->
      for_each dry (a :: rest) s
      = Ok tt (with_stats incr_new (with_stats incr_fetched s)))
  /\ ((max_articles <= 0)%Z ->
      let arts := fetch_all_feeds (fetch_feed w) feeds in
      let dup := fun a => article_exists w db (url a) in
      exists st s,
        run_pipeline dry api_key feeds db fs = Ok st s
        /\ conn s = db /\ disk s = fs /\ calls s = []
        /\ skipped_duplicate st = leading_duplicates dup arts
        /\ new st = (if forallb dup arts then 0 else 1)%Z
        /\ fetched st = (skipped_duplicate st + new st)%Z
        /\ scored st = 0%Z /\ generated st = 0%Z
        /\ ready st = 0%Z /\ review st = 0%Z /\ archive st = 0%Z).
Proof.
  split.
  - intros a rest s Hnew Hmax. cbn [Pipeline.for_each]. unfold Pipeline.bind.
    now rewrite process_over_budget.
  - intros Hmax arts dup. unfold Pipeline.run_pipeline. fold arts.
    rewrite for_each_exhausted by (cbn; lia).
    do 2 eexists. split; [reflexivity |]. cbn [conn disk calls stats with_stats].
    fold dup.
    destruct (skim_counts dup arts stats0) as (H1 & H2 & H3 & H4 & H5 & H6 & H7 & H8).
    rewrite H1, H2, H3, H4, H5, H6, H7, H8. cbn. repeat split; lia.
Qed.

(** *** Dry runs *)










End Runs.

Section BadReplies.

Import Py Fetcher Database Scorer Generator Output Pipeline.

Variable w : World.
Variables (silverbullet_space model style_guide : string).
Variables (score_high score_medium : pyfloat).
Variable max_articles : Z.

Abbreviation process dry :=
  (process w silverbullet_space model style_guide score_high score_medium
     max_articles dry).
Abbreviation for_each dry :=
  (for_each w silverbullet_space model style_guide score_high score_medium
     max_articles dry).
Abbreviation generate_and_store :=
  (generate_and_store w model style_guide score_medium).
Abbreviation run_pipeline dry :=
  (run_pipeline w silverbullet_space model style_guide score_high score_medium
     max_articles dry).

(** *** Replies that are not the payload asked for *)




End BadReplies.


(** ** The command line (curator.py) *)

Section CommandLine.

Import Py Pipeline Curator.

Lemma flt_fle (a b : pyfloat) : flt a b = true -> fle a b = true.
Proof.
  destruct a, b; cbn; try discriminate; try reflexivity.
  intros H. apply Qle_bool_iff. apply Qlt_le_weak, Qnot_le_lt.
  intros Hle. apply Qle_bool_iff in Hle. rewrite Hle in H. discriminate H.
Qed.

(** C9, as the code has it. [main] refuses to start only when the API key is
    missing. With a key, whatever the thresholds are, [score_high] below
    [score_medium] included, it hands them to [run_pipeline] as they are and
    ends as [run_pipeline] ends. With [score_high] below [score_medium] no
    score is put in the category "review". *)
Theorem thresholds_are_not_checked (w : World) (key : string) (args : Args)
    (db : Database.Conn) (fs : Output.files) :
  key <> "" ->
  (forall code, main w (Some key) args db fs <> SysExit code)
  /\ main w (Some key) args db fs
     = match run_pipeline w (space args) Config.CLAUDE_MODEL
               Config.CONTENT_STYLE (score_high args) (score_medium args)
               (max_articles args) (dry_run args) key Config.RSS_FEEDS db fs with
       | Ok st s => Returned st s
       | Raise e s => Propagated e s
       end
  /\ main w None args db fs = SysExit 1
  /\ main w (Some "") args db fs = SysExit 1
  /\ (flt (score_high args) (score_medium args) = true ->
      forall sc, category_of sc (score_high args) (score_medium args) <> "review").
Proof.
  intros Hkey.
  assert (E : main w (Some key) args db fs
     = match run_pipeline w (space args) Config.CLAUDE_MODEL
               Config.CONTENT_STYLE (score_high args) (score_medium args)
               (max_articles args) (dry_run args) key Config.RSS_FEEDS db fs with
       | Ok st s => Returned st s
       | Raise e s => Propagated e s
       end).
  { unfold main. destruct key; [contradiction | reflexivity]. }
  split.
  { intros code. rewrite E.
    destruct (run_pipeline _ _ _ _ _ _ _ _ _ _ _ _); discriminate. }
  do 3 (split; [first [exact E | reflexivity] |]).
  intros Hlt sc Hreview.
  destruct (category_bands (score_high args) (score_medium args) sc)
    as (_ & B2 & _).
  apply B2 in Hreview. destruct Hreview as [H1 H2].
  rewrite (fle_trans _ _ _ (flt_fle _ _ Hlt) H1) in H2. discriminate H2.
Qed.

End CommandLine.

(** ** The properties on the sample world *)

Section Examples.

Import Py Fetcher Database Scorer Generator Output Pipeline Curator Log.



(** A score that is NaN is at least no threshold: the article is put in the
    category "archive", though its score is not below [score_medium], and
    its row holds no score. *)
Example nan_score_is_archived :
  flt NaN (Finite 4) = false
  /\ category_of NaN (Finite 7) (Finite 4) = "archive"
  /\ exists st s,
       run_pipeline Demo.not_a_number "notes" "m" "style" (Finite 7) (Finite 4)
         1 true "key" Config.RSS_FEEDS empty_db ∅ = Ok st s
       /\ map art_status (articles (conn s)) = ["archived"]
       /\ map art_score (articles (conn s)) = [None]
       /\ archive st = 1%Z.
Proof.
  split; [reflexivity |]. split; [reflexivity |].
  do 2 eexists. split; [vm_compute; reflexivity |]. repeat split; reflexivity.
Qed.




Lemma budget_stops_the_run_witness :
  exists st s,
    run_pipeline Sample.world "notes" "m" "style" (Finite 7) (Finite 4) 0 false
      "key" Config.RSS_FEEDS empty_db ∅ = Ok st s
    /\ conn s = empty_db /\ calls s = [].
Proof.
  pose proof (budget_stops_the_run Sample.world "notes" "m" "style" (Finite 7)
                (Finite 4) 0 false "key" Config.RSS_FEEDS empty_db ∅) as [_ H].
  destruct H as (st & s & Hrun & Hconn & _ & Hcalls & _).
  - vm_compute. discriminate.
  - exists st, s. split; [exact Hrun |]. split; [exact Hconn | exact Hcalls].
Defined.

(** With [max_articles] 0 and four new articles in the feeds, the run stops
    at the first: it reports one article fetched, not four, and one new, not
    none. *)
Lemma max_articles_zero_counts_the_first_article :
  length (fetch_all_feeds (fetch_feed Sample.world) Config.RSS_FEEDS) = 4%nat
  /\ exists st s,
       run_pipeline Sample.world "notes" "m" "style" (Finite 7) (Finite 4) 0
         false "key" Config.RSS_FEEDS empty_db ∅ = Ok st s
       /\ articles (conn s) = [] /\ calls s = []
       /\ fetched st = 1%Z /\ new st = 1%Z
       /\ ~ (fetched st = 4%Z /\ new st = 0%Z).
Proof.
  split; [vm_compute; reflexivity |].
  do 2 eexists. split; [vm_compute; reflexivity |].
  cbn. repeat split; try reflexivity. intros [H _]. discriminate H.
Qed.



Lemma header_once_newest_first_witness :
  foldl (append Sample.world "notes" "ready") ∅ [Sample.entry1; Sample.entry2]
    !! target "notes" "ready"
  = Some (header_block "ready" +:+ render Sample.world Sample.entry2 +:+ nl
          +:+ universal_newlines (render Sample.world Sample.entry1)).
Proof.
  pose proof (header_once_newest_first Sample.world "notes" "ready" ∅
                [Sample.entry1] Sample.entry2) as H.
  cbn zeta in H. destruct H as (_ & _ & H).
  - vm_compute. reflexivity.
  - destruct H as [_ H]; [discriminate | exact H].
Defined.





Lemma thresholds_are_not_checked_witness :
  main Sample.world (Some "key") Sample.ill_ordered empty_db ∅
  = match run_pipeline Sample.world "notes" Config.CLAUDE_MODEL
            Config.CONTENT_STYLE (Finite 4) (Finite 7) 20 true "key"
            Config.RSS_FEEDS empty_db ∅ with
    | Ok st s => Returned st s
    | Raise e s => Propagated e s
    end.
Proof.
  pose proof (thresholds_are_not_checked Sample.world "key" Sample.ill_ordered
                empty_db ∅) as H.
  destruct H as (_ & H & _).
  - discriminate.
  - exact H.
Defined.

(** With a key and the thresholds 4 (high) and 7 (medium), [main] does not
    refuse: the run takes place, scores the four articles of the feeds and
    returns its counters. *)
Lemma ill_ordered_thresholds_are_accepted :
  flt (score_high Sample.ill_ordered) (score_medium Sample.ill_ordered) = true
  /\ (exists st s,
        main Sample.world (Some "key") Sample.ill_ordered empty_db ∅
        = Returned st s
        /\ scored st = 4%Z /\ ready st = 2%Z /\ review st = 0%Z
        /\ archive st = 2%Z)
  /\ ~ (exists code,
          main Sample.world (Some "key") Sample.ill_ordered empty_db ∅
          = SysExit code).
Proof.
  split; [reflexivity |]. split.
  - do 2 eexists. split; [vm_compute; reflexivity |]. repeat split; reflexivity.
  - intros [code H]. vm_compute in H. discriminate H.
Qed.

Lemma unknown_category_goes_to_other_witness :
  target "notes" "misc" = "notes/Content/Other.md"
  /\ append Sample.world "notes" "misc" ∅ Sample.entry1 !! "notes/Content/Other.md"
     = Some ("---" +:+ nl +:+ "title: Content" +:+ nl +:+
             "tags: #content #bitcoin" +:+ nl +:+ "---" +:+ nl
             +:+ render Sample.world Sample.entry1).
Proof.
  pose proof (unknown_category_goes_to_other Sample.world "notes" "misc" ∅
                [] Sample.entry1) as H.
  cbn zeta in H. destruct H as (Ht & Hh & _ & H).
  - discriminate.
  - discriminate.
  - discriminate.
  - split; [exact Ht |].
    destruct H as [H _]; [vm_compute; reflexivity |].
    rewrite Hh in H. exact H.
Defined.

End Examples.

(** ** The feeds (fetcher.py) *)

Section FeedSource.

Import Fetcher.

Variable fetch_feed : string -> list Article.

(** The first article of a list that has a given URL. *)
Abbreviation first_with u arts :=
  (find (fun x : Article => String.eqb (url x) u) arts).

Lemma first_with_app (u : string) (l1 l2 : list Article) :
  first_with u (l1 ++ l2)
  = match first_with u l1 with
    | Some a => Some a
    | None => first_with u l2
    end.
Proof.
  induction l1 as [|x l1 IH]; [reflexivity |].
  cbn [app find]. destruct (String.eqb (url x) u); [reflexivity | exact IH].
Qed.

Lemma first_with_none (u : string) (arts : list Article) :
  ~ In u (map url arts) -> first_with u arts = None.
Proof.
  induction arts as [|x arts IH]; [reflexivity |].
  cbn [map In find]. intros H.
  destruct (String.eqb_spec (url x) u) as [E | _]; [tauto |].
  apply IH. tauto.
Qed.

(** One feed: what is yielded, and the URLs seen afterwards. *)
Lemma yield_unseen_spec (seen : gset string) (arts : list Article) :
  let out := fst (yield_unseen seen arts) in
  let seen' := snd (yield_unseen seen arts) in
  (forall u, u ∈ seen' <-> (u ∈ seen \/ In u (map url arts)))
  /\ NoDup (map url out)
  /\ (forall a, In a out -> (url a ∉ seen) /\ first_with (url a) arts = Some a)
  /\ (forall a, In a arts -> url a ∈ seen \/ In (url a) (map url out))
  /\ sublist out arts.
Proof.
  revert seen. induction arts as [|x arts IH]; intros seen; cbn zeta.
  - cbn. split; [intros u; tauto |]. split; [constructor |].
    split; [intros a [] |]. split; [intros a [] | constructor].
  - cbn [yield_unseen]. destruct (decide (url x ∈ seen)) as [Hin | Hnin].
    + destruct (IH seen) as (I1 & I2 & I3 & I4 & I5). cbn zeta in *.
      repeat split.
      * rewrite I1. cbn [map In]. intros [H | H]; [tauto | tauto].
      * rewrite I1. cbn [map In]. intros [H | [<- | H]]; tauto.
      * exact I2.
      * now apply I3.
      * destruct (I3 a H) as [Hns Hf].
        cbn [find].
        destruct (String.eqb_spec (url x) (url a)) as [E | _]; [| exact Hf].
        rewrite E in Hin. contradiction.
      * intros a [<- | Ha]; [now left | now apply I4].
      * now apply sublist_cons.
    + destruct (yield_unseen ({[url x]} ∪ seen) arts) as [out seen'] eqn:E.
      destruct (IH ({[url x]} ∪ seen)) as (I1 & I2 & I3 & I4 & I5).
      rewrite E in I1, I2, I3, I4, I5. cbn [fst snd] in *.
      repeat split.
      * rewrite I1. cbn [map In]. rewrite elem_of_union, elem_of_singleton.
        intros [[-> | H] | H]; tauto.
      * rewrite I1. cbn [map In]. rewrite elem_of_union, elem_of_singleton.
        intros [H | [<- | H]]; tauto.
      * cbn [map]. apply NoDup_cons. split; [| exact I2].
        intros Hx. apply list_elem_of_In, in_map_iff in Hx.
        destruct Hx as (a & Ea & Ha). destruct (I3 a Ha) as [Hns _].
        apply Hns. rewrite Ea. apply elem_of_union_l. now apply elem_of_singleton.
      * destruct H as [<- | Ha]; [exact Hnin |].
        destruct (I3 a Ha) as [Hns _]. intros Hs. apply Hns.
        now apply elem_of_union_r.
      * destruct H as [<- | Ha].
        -- cbn [find]. now rewrite String.eqb_refl.
        -- destruct (I3 a Ha) as [Hns Hf]. cbn [find].
           destruct (String.eqb_spec (url x) (url a)) as [E' | _]; [| exact Hf].
           exfalso. apply Hns. rewrite E'. apply elem_of_union_l.
           now apply elem_of_singleton.
      * intros a [<- | Ha]; [right; now left |].
        destruct (I4 a Ha) as [Hs | Ho].
        -- apply elem_of_union in Hs. destruct Hs as [Hs | Hs]; [| now left].
           apply elem_of_singleton in Hs. right. left. now symmetry.
        -- right. now right.
      * now apply sublist_skip.
Qed.

Lemma fetch_feeds_from_spec (seen : gset string) (feed_urls : list string) :
  let all := concat (map fetch_feed feed_urls) in
  let out := fetch_feeds_from fetch_feed seen feed_urls in
  NoDup (map url out)
  /\ (forall a, In a out -> (url a ∉ seen) /\ first_with (url a) all = Some a)
  /\ (forall a, In a all -> url a ∈ seen \/ In (url a) (map url out))
  /\ sublist out all.
Proof.
  revert seen. induction feed_urls as [|f rest IH]; intros seen; cbn zeta.
  - cbn. repeat split; try tauto; constructor.
  - cbn [fetch_feeds_from map concat].
    pose proof (yield_unseen_spec seen (fetch_feed f)) as Y. cbn zeta in Y.
    destruct (yield_unseen seen (fetch_feed f)) as [out1 seen1].
    cbn [fst snd] in Y. destruct Y as (Y1 & Y2 & Y3 & Y4 & Y5).
    destruct (IH seen1) as (I1 & I2 & I3 & I4). cbn zeta in *.
    repeat split.
    + rewrite map_app. apply NoDup_app. split; [exact Y2 |]. split; [| exact I1].
      intros u Hu1 Hu2. apply list_elem_of_In, in_map_iff in Hu2.
      destruct Hu2 as (a & <- & Ha). destruct (I2 a Ha) as [Hns _].
      apply Hns, Y1. right. apply list_elem_of_In in Hu1.
      apply in_map_iff in Hu1. destruct Hu1 as (b & Eb & Hb).
      destruct (Y3 b Hb) as [_ Hf].
      apply find_some in Hf. rewrite <- Eb. apply in_map. tauto.
    + apply in_app_or in H. destruct H as [H | H].
      * now apply Y3.
      * destruct (I2 a H) as [Hns _]. intros Hs. apply Hns, Y1. now left.
    + apply in_app_or in H. rewrite first_with_app. destruct H as [H | H].
      * destruct (Y3 a H) as [_ ->]. reflexivity.
      * destruct (I2 a H) as [Hns Hf]. rewrite first_with_none; [exact Hf |].
        intros Hu. apply Hns, Y1. now right.
    + intros a Ha. apply in_app_or in Ha. rewrite map_app.
      destruct Ha as [Ha | Ha].
      * destruct (Y4 a Ha) as [H | H]; [now left |]. right.
        apply in_or_app. now left.
      * destruct (I3 a Ha) as [H | H].
        -- apply Y1 in H. destruct H as [H | H]; [now left |].
           apply in_map_iff in H. destruct H as (b & Eb & Hb).
           destruct (Y4 b Hb) as [H | H]; [left; now rewrite <- Eb |].
           right. apply in_or_app. left. now rewrite <- Eb.
        -- right. apply in_or_app. now right.
    + now apply sublist_app.
Qed.

(** X1. The articles [fetch_all_feeds] yields have pairwise different URLs,
    whatever the feeds return. *)
Theorem fetch_all_feeds_urls_unique (feed_urls : list string) :
  NoDup (map url (fetch_all_feeds fetch_feed feed_urls)).
Proof. apply (fetch_feeds_from_spec ∅ feed_urls). Qed.

(** X2. [fetch_all_feeds] yields the articles of the feeds in fetch order
    with the repeated URLs left out: what it yields is a sublist of the
    feeds' articles put end to end, every URL of a feed is the URL of a
    yielded article, and the article yielded for a URL is the first one with
    that URL. *)
Theorem fetch_all_feeds_keeps_first (feed_urls : list string) :
  let all := concat (map fetch_feed feed_urls) in
  let out := fetch_all_feeds fetch_feed feed_urls in
  sublist out all
  /\ (forall a, In a all -> In (url a) (map url out))
  /\ (forall a, In a out ->
        find (fun x => String.eqb (url x) (url a)) all = Some a).
Proof.
  cbn zeta. destruct (fetch_feeds_from_spec ∅ feed_urls) as (_ & H2 & H3 & H4).
  cbn zeta in *. split; [exact H4 |]. split.
  - intros a Ha. destruct (H3 a Ha) as [H | H]; [| exact H].
    now apply not_elem_of_empty in H.
  - intros a Ha. now apply H2.
Qed.

End FeedSource.

(** ** The record store (database.py) *)

Section RecordStore.

Import Py Database.

Variable w : World.

Lemma next_rowid_above (ids : list Z) (seq : Z) :
  (seq < next_rowid ids seq)%Z
  /\ forall i, In i ids -> (i < next_rowid ids seq)%Z.
Proof.
  unfold next_rowid. induction ids as [|x ids [IH1 IH2]]; cbn [foldr].
  - split; [lia | intros i []].
  - split; [lia |]. intros i [<- | Hi]; [lia |]. specialize (IH2 i Hi). lia.
Qed.

(** X3. [insert_article] and [article_exists] fit together: inserting a URL
    for which [article_exists] says no succeeds and adds one row, after which
    [article_exists] says yes for that URL and for every URL with the same
    hash, and answers as before for all others; inserting a URL for which it
    says yes raises [IntegrityError]. *)
Theorem insert_then_exists (c : Conn) (k : Z) (u title source : string)
    (published_at : option string) :
  (article_exists w c u = true ->
   insert_article w c k u title source published_at = inl IntegrityError)
  /\ (article_exists w c u = false ->
      exists i c',
        insert_article w c k u title source published_at = inr (i, c')
        /\ length (articles c') = S (length (articles c))
        /\ article_exists w c' u = true
        /\ forall u',
             article_exists w c' u'
             = article_exists w c u' || String.eqb (url_hash w u) (url_hash w u')).
Proof.
  unfold article_exists, insert_article. split; intros ->; [reflexivity |].
  do 2 eexists. split; [reflexivity |]. cbn [articles].
  split; [rewrite length_app; cbn; lia |].
  split.
  - rewrite existsb_app. cbn. rewrite String.eqb_refl. apply orb_true_r.
  - intros u'. rewrite existsb_app. cbn. now rewrite orb_false_r.
Qed.

(** X4. The id [insert_article] returns is new: it is larger than the id of
    every row of the table and than every id given out before, it becomes
    the last id given out, and ids that were pairwise different stay so. *)
Theorem insert_article_id_is_new (c : Conn) (k : Z) (u title source : string)
    (published_at : option string) (i : Z) (c' : Conn) :
  insert_article w c k u title source published_at = inr (i, c') ->
  (forall row, In row (articles c) -> (art_id row < i)%Z)
  /\ (seq_articles c < i)%Z
  /\ seq_articles c' = i
  /\ map art_id (articles c') = (map art_id (articles c) ++ [i])%list
  /\ (NoDup (map art_id (articles c)) -> NoDup (map art_id (articles c'))).
Proof.
  unfold insert_article.
  destruct (existsb _ (articles c)); [discriminate |].
  intros [= <- <-]. cbn [articles seq_articles].
  destruct (next_rowid_above (map art_id (articles c)) (seq_articles c))
    as [H1 H2].
  split; [intros row Hrow; apply H2; now apply in_map |].
  split; [exact H1 |]. split; [reflexivity |].
  split; [now rewrite map_app |].
  intros Hnd. rewrite map_app. apply NoDup_app. split; [exact Hnd |].
  split; [| apply NoDup_singleton].
  intros x Hx Hx'. apply list_elem_of_In in Hx, Hx'. destruct Hx' as [<- | []].
  specialize (H2 _ Hx). cbn [map new_row art_id] in H2. lia.
Qed.


End RecordStore.

(** ** Reading the replies (scorer.py, generator.py) *)

Section Replies.

Import Py Scorer Generator.

Lemma split_no_sep (sep : ascii) (s : string) :
  ~ In sep (list_ascii_of_string s) -> split sep s = [s].
Proof.
  induction s as [|c s IH]; [reflexivity |]. cbn [list_ascii_of_string In split].
  intros H. destruct (Ascii.eqb_spec c sep) as [E | _]; [tauto |].
  rewrite IH by tauto. reflexivity.
Qed.

Lemma removelast_snoc {A} (l : list A) (x : A) : removelast (l ++ [x]) = l.
Proof. now rewrite removelast_app, app_nil_r. Qed.

(** X6. A reply wrapped in a code fence is unwrapped exactly: for every
    first line after the three backquotes (a language tag, or nothing) and
    every body, of one line or of many, the text that starts the fence, holds
    the body and ends with the three backquotes on a line of their own is
    turned into the body. *)
Theorem strip_code_fence_unwraps (tag body : string) :
  ~ In LF (list_ascii_of_string tag) ->
  strip_code_fence ("```" +:+ tag +:+ nl +:+ body +:+ nl +:+ "```") = body.
Proof.
  intros Htag. unfold strip_code_fence.
  assert (Hs : startswith "```" ("```" +:+ tag +:+ nl +:+ body +:+ nl +:+ "```")
               = true).
  { unfold startswith. simpl. now destruct tag. }
  rewrite Hs.
  change ("```" +:+ tag +:+ nl +:+ body +:+ nl +:+ "```")
    with (("```" +:+ tag) +:+ String LF (body +:+ String LF "```")).
  rewrite !split_app_sep.
  rewrite (split_no_sep LF ("```" +:+ tag)).
  - cbn [app]. unfold slice_1_m1. cbn [tail].
    change (split LF "```") with ["```"]. rewrite removelast_snoc.
    apply (join_split LF).
  - cbn. intros [H | [H | [H | H]]]; try discriminate. now apply Htag.
Qed.

(** X7. A reply that starts with a code fence and has no line feed in it is
    emptied: its one line counts as the opening fence and as the closing
    fence, and nothing is left to decode. *)
Theorem strip_code_fence_one_line (text : string) :
  startswith "```" text = true ->
  ~ In LF (list_ascii_of_string text) ->
  strip_code_fence text = "".
Proof.
  intros Hs Hn. unfold strip_code_fence. rewrite Hs, split_no_sep by exact Hn.
  reflexivity.
Qed.

Lemma dict_get_absent (data : list (string * pyval)) (k : string) (d : pyval) :
  ~ In k (map fst data) -> dict_get data k d = d.
Proof.
  induction data as [|[k' v] data IH]; [reflexivity |]. cbn [map fst In dict_get].
  intros H. destruct (String.eqb_spec k' k) as [E | _]; [tauto |].
  apply IH. tauto.
Qed.

Section WithWorld.

Variable w : World.

(** X8. Keys that the decoded object lacks are given defaults, each on its
    own: without "score" the score is 1.0, without "reason" the rationale is
    "No reason provided", without "is_bitcoin_relevant" the flag is false;
    the keys that are there keep their values. An empty object is thus read
    as (1.0, "No reason provided", false), which is not the value returned
    for a reply that cannot be decoded. *)
Theorem parse_score_defaults (text : string) (data : list (string * pyval)) :
  json_loads w text = inr (PDict data) ->
  ~ In "score" (map fst data) ->
  exists sr,
    parse_score w text = inr sr
    /\ score sr = NFloat (Finite 1)
    /\ reason sr = dict_get data "reason" (PStr "No reason provided")
    /\ is_bitcoin_relevant sr = dict_get data "is_bitcoin_relevant" (PBool false)
    /\ (~ In "reason" (map fst data) -> reason sr = PStr "No reason provided")
    /\ (~ In "is_bitcoin_relevant" (map fst data) ->
        is_bitcoin_relevant sr = PBool false)
    /\ sr <> parse_failed.
Proof.
  intros Hj Hs. unfold parse_score. rewrite Hj, dict_get_absent by exact Hs.
  cbn [py_float]. change (float_of_int 1) with (Some (Finite 1)). eexists. split; [reflexivity |]. cbn [score reason is_bitcoin_relevant].
  do 3 (split; [reflexivity |]).
  do 2 (split; [intros H; now apply dict_get_absent |]).
  unfold parse_failed. intros [= E].
Qed.

(** X9. A score that [float] cannot take for want of the right type (null,
    a list, an object) makes the whole reply count as unreadable: the result
    is the value for a reply that cannot be decoded, and the rationale and
    the flag that the reply did give are dropped. *)
Theorem parse_score_untyped_score (text : string)
    (data : list (string * pyval)) :
  json_loads w text = inr (PDict data) ->
  (dict_get data "score" (PInt 1) = PNone
   \/ (exists l, dict_get data "score" (PInt 1) = PList l)
   \/ (exists kv, dict_get data "score" (PInt 1) = PDict kv)) ->
  parse_score w text
  = inr {| score := NInt 1; reason := PStr "Failed to parse";
           is_bitcoin_relevant := PBool false |}.
Proof.
  intros Hj Hs. unfold parse_score. rewrite Hj.
  destruct Hs as [-> | [[l ->] | [kv ->]]]; reflexivity.
Qed.

Lemma round_int_small (z : Z) : (Z.abs z <= 2 ^ 53)%Z -> round_int z = z.
Proof.
  intros H. unfold round_int.
  destruct (Z.ltb_spec (Z.abs z) (2 ^ 53)) as [_ | Hge]; [reflexivity |].
  assert (E : z = (2 ^ 53)%Z \/ z = (- 2 ^ 53)%Z) by lia.
  destruct E as [-> | ->]; vm_compute; reflexivity.
Qed.

(** X10. A score that is a number is taken without any bound: nothing keeps
    it between 1 and 10. A float is kept as it is, the infinities and NaN
    included; an integer is converted as [float] does, exactly up to 2^53 in
    magnitude and rounded to the nearest double beyond; a JSON true or false
    is taken as 1.0 or 0.0. *)
Theorem parse_score_keeps_any_number (text : string)
    (data : list (string * pyval)) (sr : ScoreResult) :
  json_loads w text = inr (PDict data) ->
  parse_score w text = inr sr ->
  (forall z, dict_get data "score" (PInt 1) = PInt z ->
             score sr = NFloat (Finite (inject_Z (round_int z)))
             /\ ((Z.abs z <= 2 ^ 53)%Z ->
                 score sr = NFloat (Finite (inject_Z z))))
  /\ (forall f, dict_get data "score" (PInt 1) = PFloat f -> score sr = NFloat f)
  /\ (forall b, dict_get data "score" (PInt 1) = PBool b ->
                score sr = NFloat (Finite (if b then 1 else 0))).
Proof.
  intros Hj. unfold parse_score. rewrite Hj. intros Hp.
  split; [| split].
  - intros z Hz. rewrite Hz in Hp. cbn [py_float] in Hp.
    unfold float_of_int in Hp.
    destruct (2 ^ 1024 <=? Z.abs (round_int z))%Z; [discriminate |].
    injection Hp as <-. cbn [score]. split; [reflexivity |].
    intros Hsmall. now rewrite round_int_small.
  - intros f Hf. rewrite Hf in Hp. cbn [py_float] in Hp. now injection Hp as <-.
  - intros b Hb. rewrite Hb in Hp. cbn [py_float] in Hp. now injection Hp as <-.
Qed.


End WithWorld.

End Replies.

(** ** More on the markdown logs (output.py) *)

Section LogEdges.

Import Py Output Log.

Variable w : World.
Variable space_path : string.

Lemma filename_cases (category : string) :
  let name := default "Content/Other.md" (filename_map !! category) in
  (category = "ready" /\ name = "Content/ReadyToPost.md")
  \/ (category = "review" /\ name = "Content/NeedsReview.md")
  \/ (category = "archive" /\ name = "Content/Archive.md")
  \/ (category <> "ready" /\ category <> "review" /\ category <> "archive"
      /\ name = "Content/Other.md").
Proof.
  unfold filename_map. cbn zeta.
  rewrite !lookup_insert, lookup_empty.
  repeat case_decide; subst; simpl; auto 10.
Qed.

(** X13. The logs are separate files: an append for one of the categories
    "ready", "review" and "archive" leaves the file of every other category
    as it was, the file Content/Other.md of the unknown categories
    included. *)
Theorem logs_are_separate (category category' : string) (fs : files)
    (e : Entry) (prepend : bool) :
  category = "ready" \/ category = "review" \/ category = "archive" ->
  category' <> category ->
  append_content w space_path fs category (e_title e) (e_url e) (e_source e)
    (e_score e) (e_score_reason e) (e_now e) (e_tweet e) (e_thread e)
    (e_linkedin e) prepend !! target space_path category'
  = fs !! target space_path category'.
Proof.
  intros Hknown Hne. unfold append_content. apply lookup_insert_ne.
  unfold target, path_join. intros E. apply String.app_inj in E.
  apply String.app_inj in E.
  destruct (filename_cases category)
    as [[Hk Hc] | [[Hk Hc] | [[Hk Hc] | (H1 & H2 & H3 & _)]]];
    [| | | destruct Hknown as [-> | [-> | ->]]; congruence].
  all: cbn zeta in Hc; rewrite Hc in E.
  all: destruct (filename_cases category')
         as [[Hk' Hc'] | [[Hk' Hc'] | [[Hk' Hc'] | (_ & _ & _ & Hc')]]];
       cbn zeta in Hc'; rewrite Hc' in E; first [discriminate E | congruence].
Qed.

(** X14. With [prepend=False] the entry goes to the end: in a log written by
    this module the header block and the body stay in front (as read back)
    and the entry follows them, so the order is oldest first; on a file that
    does not exist the entry comes after the header and two empty lines. *)
Theorem append_at_the_end (category : string) (fs : files) (e : Entry)
    (old : string) :
  let written :=
    append_content w space_path fs category (e_title e) (e_url e) (e_source e)
      (e_score e) (e_score_reason e) (e_now e) (e_tweet e) (e_thread e)
      (e_linkedin e) false !! target space_path category in
  (fs !! target space_path category = None ->
   written = Some (header_block category +:+ nl +:+ nl +:+ render w e))
  /\ (fs !! target space_path category = Some (header_block category +:+ old) ->
      written
      = Some (header_block category +:+ universal_newlines old +:+ nl
              +:+ render w e)).
Proof.
  cbn zeta. unfold append_content. fold (target space_path category).
  fold (render w e). rewrite lookup_insert_eq. unfold _read_existing, spliced.
  destruct (render_closes w e) as [x Hx].
  split; intros ->.
  - cbn [String.eqb]. rewrite get_header_block, Hx. f_equal.
    replace ((header_block category +:+ nl) +:+ nl +:+ x +:+ "---" +:+ nl)
      with (header_block category +:+ (nl +:+ nl +:+ x +:+ "--") +:+ String "-" nl)
      by (now rewrite !app_assoc_s).
    rewrite strip_log by reflexivity. now rewrite !app_assoc_s.
  - rewrite read_back.
    destruct (header_part_lines category) as (_ & _ & _ & He).
    rewrite header_block_part, He, <- header_block_part, Hx. f_equal.
    replace ((header_block category +:+ universal_newlines old) +:+ nl
             +:+ x +:+ "---" +:+ nl)
      with (header_block category +:+ (universal_newlines old +:+ nl +:+ x +:+ "--")
            +:+ String "-" nl)
      by (now rewrite !app_assoc_s).
    rewrite strip_log by reflexivity. now rewrite !app_assoc_s.
Qed.

Lemma find_header_end_none (i : nat) (lines : list string) :
  Forall (fun line => startswith "---" line = false) lines ->
  find_header_end i lines = 0%nat.
Proof.
  intros H. revert i. induction H as [|line lines Hl _ IH]; intros i;
    [reflexivity |].
  cbn [find_header_end]. rewrite Hl. apply IH.
Qed.

(** X15. A file that is there but has no line of dashes after its first line
    (a file from elsewhere, or a header that was cut) gets no header: the
    entry is put in front of all that the file holds. *)
Theorem headerless_file_gets_no_header (category : string) (fs : files)
    (e : Entry) (stored : string) :
  fs !! target space_path category = Some stored ->
  universal_newlines stored <> "" ->
  Forall (fun line => startswith "---" line = false)
    (tail (split LF (universal_newlines stored))) ->
  append w space_path category fs e !! target space_path category
  = Some (strip (nl +:+ render w e +:+ nl +:+ universal_newlines stored) +:+ nl).
Proof.
  intros Hs Hne Hlines. rewrite append_lookup. unfold _read_existing, spliced.
  rewrite Hs. set (existing := universal_newlines stored) in *.
  destruct (String.eqb_spec existing "") as [E | _]; [contradiction |].
  destruct (split_nonempty LF existing) as (l0 & ls & Hsplit).
  assert (Hend : find_header_end 0 (split LF existing) = 0%nat).
  { rewrite Hsplit in *. cbn [find_header_end tail] in *.
    change (0 <? 0)%nat with false. rewrite andb_false_r.
    now apply find_header_end_none. }
  rewrite Hend, take_0, drop_0. change (join nl []) with "".
  replace (join nl (split LF existing)) with existing
    by (symmetry; apply (join_split LF)).
  reflexivity.
Qed.

(** X16. A variant that is missing or empty leaves no trace: for a value
    that counts as false ([None], the empty string) the entry is the same as
    without the variant, and the pipeline stores no content row for it. *)
Theorem empty_variant_is_dropped (title url source : string) (score : number)
    (score_reason : pyval) (timestamp : string) (v tweet thread linkedin : pyval)
    (article_id : Z) (content_type : string) (s : Pipeline.State) :
  truthy v = false ->
  _format_entry w title url source score score_reason timestamp v thread linkedin
  = _format_entry w title url source score score_reason timestamp PNone thread linkedin
  /\ _format_entry w title url source score score_reason timestamp tweet v linkedin
     = _format_entry w title url source score score_reason timestamp tweet PNone linkedin
  /\ _format_entry w title url source score score_reason timestamp tweet thread v
     = _format_entry w title url source score score_reason timestamp tweet thread PNone
  /\ Pipeline.store_if w article_id content_type v s = Pipeline.Ok tt s.
Proof.
  intros Hv. unfold _format_entry, Pipeline.store_if. rewrite Hv.
  cbn [truthy]. repeat split.
Qed.

End LogEdges.

(** ** More on the orchestrator (pipeline.py) *)


Section RunInvariants.

Import Py Fetcher Database Scorer Generator Output Pipeline.

Variable w : World.
Variables (silverbullet_space model style_guide : string).
Variables (score_high score_medium : pyfloat).
Variable max_articles : Z.

Abbreviation process dry :=
  (process w silverbullet_space model style_guide score_high score_medium
     max_articles dry).
Abbreviation for_each dry :=
  (for_each w silverbullet_space model style_guide score_high score_medium
     max_articles dry).
Abbreviation run_pipeline dry :=
  (run_pipeline w silverbullet_space model style_guide score_high score_medium
     max_articles dry).
Abbreviation generate_and_store :=
  (generate_and_store w model style_guide score_medium).

Tactic Notation "run_m" :=
  unfold Pipeline.bind, modify, gets, ret, raise;
  cbn [conn processed stats disk calls with_stats with_conn with_disk
       with_call with_processed id final negb].
Tactic Notation "run_m" "in" hyp(H) :=
  unfold Pipeline.bind, modify, gets, ret, raise in H;
  cbn [conn processed stats disk calls with_stats with_conn with_disk
       with_call with_processed id final negb] in H.

Lemma store_if_summary (article_id : Z) (content_type : string) (v : pyval)
    (s : State) :
  match store_if w article_id content_type v s with
  | Ok _ t =>
      stats t = stats s /\ processed t = processed s /\ disk t = disk s
      /\ calls t = calls s /\ articles (conn t) = articles (conn s)
      /\ exists rows,
           generated_content (conn t) = (generated_content (conn s) ++ rows)%list
  | Raise e t => t = s
  end.
Proof.
  destruct (store_if w article_id content_type v s) as [[] t | e t] eqn:E.
  - pose proof (store_if_frame w article_id content_type v s) as F.
    cbn zeta in F. rewrite E in F. cbn [final] in F.
    destruct F as (Fa & _ & Fs & Fp & Fd & Fc).
    destruct (store_if_ok w _ _ _ _ _ E) as (rows & R & _).
    repeat (split; [assumption |]). now exists rows.
  - exact (store_if_raise w _ _ _ _ _ _ E).
Qed.

Lemma generate_and_store_summary (a : Article) (article_id : Z)
    (sr : ScoreResult) (n : nat) (s : State) :
  let r := generate_and_store a article_id sr n s in
  let t := final r in
  let wants := wants_content sr score_medium in
  processed t = processed s /\ disk t = disk s
  /\ articles (conn t) = articles (conn s)
  /\ (exists rows,
        generated_content (conn t) = (generated_content (conn s) ++ rows)%list)
  /\ calls t
     = (calls s ++
        (if wants
         then [generate_request (title a) (summary a) (source a) (url a)
                 style_guide model]
         else []))%list
  /\ match r with
     | Ok _ _ => stats t = if wants then incr_generated (stats s) else stats s
     | Raise e _ =>
         wants = true
         /\ (stats t = stats s \/ stats t = incr_generated (stats s))
     end.
Proof.
  cbn zeta. unfold Pipeline.generate_and_store.
  destruct (wants_content sr score_medium).
  2: { run_m. repeat split; try now rewrite app_nil_r.
       exists []. now rewrite app_nil_r. }
  run_m.
  destruct (generate_content w n (title a) (summary a) (source a) (url a)
              style_guide model) as [e | content] eqn:Hg.
  { run_m. repeat split; try tauto. exists []. now rewrite app_nil_r. }
  run_m.
  set (s0 := with_stats incr_generated (with_call _ s)).
  assert (H0 : processed s0 = processed s /\ disk s0 = disk s
               /\ articles (conn s0) = articles (conn s)
               /\ generated_content (conn s0) = generated_content (conn s)
               /\ calls s0 = (calls s ++ [generate_request (title a) (summary a)
                     (source a) (url a) style_guide model])%list
               /\ stats s0 = incr_generated (stats s)) by now subst s0.
  clearbody s0. destruct H0 as (Hp & Hd & Ha & Hg0 & Hc & Hst).
  pose proof (store_if_summary article_id "tweet" (tweet content) s0) as F1.
  destruct (store_if w article_id "tweet" (tweet content) s0) as [[] s1 | e s1];
    cbn [final].
  2: { subst s1. repeat split; try tauto; try congruence.
       exists []. rewrite app_nil_r. congruence. }
  destruct F1 as (F1s & F1p & F1d & F1c & F1a & rows1 & F1g).
  pose proof (store_if_summary article_id "thread" (thread content) s1) as F2.
  destruct (store_if w article_id "thread" (thread content) s1) as [[] s2 | e s2];
    cbn [final].
  2: { subst s2. repeat split; try tauto; try congruence;
         try (right; congruence).
       exists rows1. congruence. }
  destruct F2 as (F2s & F2p & F2d & F2c & F2a & rows2 & F2g).
  pose proof (store_if_summary article_id "linkedin" (linkedin content) s2) as F3.
  destruct (store_if w article_id "linkedin" (linkedin content) s2) as [[] s3 | e s3];
    cbn [final].
  2: { subst s3. repeat split; try tauto; try congruence;
         try (right; congruence).
       exists (rows1 ++ rows2)%list. rewrite F2g, F1g, Hg0. now rewrite <- app_assoc. }
  destruct F3 as (F3s & F3p & F3d & F3c & F3a & rows3 & F3g).
  repeat split; try congruence.
  exists (rows1 ++ rows2 ++ rows3)%list.
  rewrite F3g, F2g, F1g, Hg0. now rewrite <- !app_assoc.
Qed.

Lemma set_score_fresh (i : Z) (sc : option pyfloat) (rsn : pyval)
    (status : string)
    (rows : list ArticleRow) :
  (forall row, In row rows -> (art_id row < i)%Z) ->
  map (set_score i sc rsn status) rows = rows.
Proof.
  intros H. rewrite <- (map_id rows) at 2. apply map_ext_in. intros row Hin.
  unfold set_score. destruct (Z.eqb_spec (art_id row) i) as [E | _];
    [specialize (H row Hin); lia | reflexivity].
Qed.

Lemma next_rowid_fresh (rows : list ArticleRow) (seq : Z) :
  forall row, In row rows -> (art_id row < next_rowid (map art_id rows) seq)%Z.
Proof.
  intros row Hin. unfold next_rowid.
  induction rows as [|x rows IH]; [destruct Hin |].
  cbn [map foldr]. destruct Hin as [-> | Hin]; [lia |].
  specialize (IH Hin). lia.
Qed.

Lemma categorize_facts (sc : pyfloat) (st : Stats) :
  let '(category, status, st') := categorize sc score_high score_medium st in
  (category = "ready" \/ category = "review" \/ category = "archive")
  /\ (status = "ready" \/ status = "review" \/ status = "archived")
  /\ fetched st' = fetched st /\ new st' = new st
  /\ skipped_duplicate st' = skipped_duplicate st
  /\ scored st' = scored st /\ generated st' = generated st
  /\ Run.categorized st' = (Run.categorized st + 1)%Z
  /\ (Run.stored_score sc = None -> status = "archived").
Proof.
  unfold categorize, Run.categorized.
  destruct (fle score_high sc) eqn:Hh; [| destruct (fle score_medium sc) eqn:Hm];
    cbn; repeat split; auto; try lia; intros Hn.
  - destruct sc; try discriminate Hn. now destruct score_high.
  - destruct sc; try discriminate Hn. now destruct score_medium.
Qed.

Lemma stored_score_not_nan (sc : pyfloat) : Run.stored_score sc <> Some NaN.
Proof. destruct sc; discriminate. Qed.

(** Writing the entry changes the log of the category at most, whether it
    returns or raises, and nothing else of the state. *)
Lemma write_output_summary (dry : bool) (a : Article) (category : string)
    (sr : ScoreResult) (k : Z) (content : pyval * pyval * pyval) (s : State) :
  category = "ready" \/ category = "review" \/ category = "archive" ->
  exists d,
    (write_output w silverbullet_space dry a category sr k content s
     = Ok tt (with_disk d s)
     \/ exists e,
          write_output w silverbullet_space dry a category sr k content s
          = Raise e (with_disk d s))
    /\ forall p, ~ Run.is_log (expanduser w silverbullet_space) p ->
                 d !! p = disk s !! p.
Proof.
  intros Hc. destruct content as [[tw th] li].
  assert (Hne : forall p, ~ Run.is_log (expanduser w silverbullet_space) p ->
            p <> Log.target (expanduser w silverbullet_space) category).
  { intros p Hp E. apply Hp. unfold Run.is_log.
    destruct Hc as [-> | [-> | ->]]; auto. }
  destruct dry.
  - rewrite write_output_dry. exists (disk s). split; [left; now destruct s | auto].
  - rewrite write_output_wet. destruct (fs_fault w k) as [f |].
    + eexists. split; [right; eexists; reflexivity |].
      intros p Hp. destruct (fault_left f); [| reflexivity].
      apply lookup_insert_ne. intros E. now apply (Hne p Hp).
    + eexists. split; [left; reflexivity |].
      intros p Hp. unfold append_content. apply lookup_insert_ne.
      intros E. now apply (Hne p Hp).
Qed.

(** What one iteration does to the state, however it ends. *)
Lemma process_summary (dry : bool) (a : Article) (s : State) :
  let r := process dry a s in
  let t := final r in
  let dp := (processed t - processed s)%Z in
  let ds := (scored (stats t) - scored (stats s))%Z in
  let dg := (generated (stats t) - generated (stats s))%Z in
  let dc := (Run.categorized (stats t) - Run.categorized (stats s))%Z in
  fetched (stats t) = (fetched (stats s) + 1)%Z
  /\ (new (stats t) + skipped_duplicate (stats t)
      = new (stats s) + skipped_duplicate (stats s) + 1)%Z
  /\ (exists extra,
        articles (conn t) = (articles (conn s) ++ extra)%list
        /\ Z.of_nat (length extra) = dp
        /\ (forall row, In row extra -> art_url row = url a)
        /\ ((exists c t', r = Ok c t') -> Forall Run.settled extra))
  /\ (exists rows,
        generated_content (conn t) = (generated_content (conn s) ++ rows)%list)
  /\ (dp = 0 \/ (dp = 1 /\ processed s < max_articles))%Z
  /\ (forall p, ~ Run.is_log (expanduser w silverbullet_space) p ->
                disk t !! p = disk s !! p)
  /\ (exists cs,
        calls t = (calls s ++ cs)%list
        /\ (Z.of_nat (length cs) <= 2 * dp)%Z
        /\ ((exists c t', r = Ok c t') -> Z.of_nat (length cs) = ds + dg)%Z)
  /\ (0 <= dc <= ds /\ ds <= dp /\ 0 <= dg <= ds)%Z
  /\ match r with
     | Ok Continue _ =>
         ds = dp /\ dc = dp
         /\ (new (stats t) - new (stats s))%Z = dp
         /\ article_exists w (conn t) (url a) = true
     | Ok Break _ =>
         dp = 0%Z /\ ds = 0%Z /\ dg = 0%Z /\ dc = 0%Z
         /\ new (stats t) = (new (stats s) + 1)%Z
         /\ (max_articles <= processed s)%Z
     | Raise _ _ => True
     end.
Proof.
  remember (process dry a s) as r eqn:Hr. cbn zeta.
  assert (Hnil : forall {A} (l : list A), l = (l ++ [])%list)
    by (intros; now rewrite app_nil_r).
  destruct (article_exists w (conn s) (url a)) eqn:Hnew.
  { rewrite process_duplicate in Hr by exact Hnew. subst r.
    cbn. unfold Run.categorized. cbn.
    repeat split; try lia; try (exists []; repeat split; cbn; auto; try lia);
      try (intros row []); try (intros _; constructor); auto. }
  destruct (Z.leb_spec max_articles (processed s)) as [Hmax | Hmax].
  { rewrite process_over_budget in Hr by assumption. subst r.
    cbn. unfold Run.categorized. cbn.
    repeat split; try lia; try (exists []; repeat split; cbn; auto; try lia);
      try (intros row []); try (intros _; constructor); auto. }
  destruct (score_article w (length (calls s)) (title a) (summary a)
              (source a) model) as [e | sr] eqn:Hscore.
  { unfold Pipeline.process in Hr. run_m in Hr. rewrite Hnew in Hr.
    destruct (Z.leb_spec max_articles (processed s)); [lia |].
    rewrite (insert_article_fresh _ _ _ _ Hnew) in Hr. cbn zeta in Hr.
    run_m in Hr. rewrite Hscore in Hr. run_m in Hr. subst r.
    cbn. unfold Run.categorized. cbn.
    split; [lia |]. split; [lia |]. split.
    { eexists. split; [reflexivity |]. cbn. split; [lia |]. split.
      - intros row [<- | []]. reflexivity.
      - intros (c & t' & [=]). }
    split; [exists []; apply Hnil |]. split; [right; lia |].
    split; [reflexivity |]. split.
    { eexists. split; [reflexivity |]. cbn. split; [lia |].
      intros (c & t' & [=]). }
    split; [lia | exact I]. }
  destruct (score_article_bound w model _ _ _ _ _ Hscore) as (bv & Hb & Hbv).
  destruct (reason sr) as [| b | z | q | rsn | l | kv] eqn:Hreason.
  5: { pose proof (process_scored w silverbullet_space model style_guide
                     score_high score_medium max_articles dry a s sr rsn Hnew
                     Hmax Hscore Hreason) as P.
       cbn zeta in P. rewrite P in Hr. clear P.
       pose proof (categorize_facts (num_val (score sr))
                     (incr_scored (incr_new (incr_fetched (stats s))))) as Hcat.
       destruct (categorize (num_val (score sr)) score_high score_medium _)
         as [[category status] st].
       destruct Hcat as (Kc & Ks & K1 & K2 & K3 & K4 & K5 & K6 & K7).
       cbn [fst snd] in Hr.
       rewrite map_app, set_score_fresh in Hr by apply next_rowid_fresh.
       cbn [map] in Hr. unfold set_score in Hr. cbn [new_row art_id] in Hr.
       rewrite Z.eqb_refl in Hr.
       match type of Hr with
       | _ = Pipeline.bind _ _ ?m => set (mid := m) in Hr
       end.
       match eval unfold mid in mid with
       | context [(_ ++ [?x])%list] => set (row := x) in mid
       end.
       unfold Pipeline.bind in Hr.
       pose proof (generate_and_store_summary a
                     (next_rowid (map art_id (articles (conn s)))
                        (seq_articles (conn s)))
                     sr (S (length (calls s))) mid) as G.
       cbn zeta in G. destruct G as (Gp & Gd & Ga & (rows & Gg) & Gc & Gr).
       assert (Hex : forall c, articles c = (articles (conn s) ++ [row])%list ->
                 article_exists w c (url a) = true).
       { intros c Hc. unfold article_exists. rewrite Hc, existsb_app. cbn.
         rewrite String.eqb_refl. apply orb_true_r. }
       assert (Hset : Run.settled row).
       { split; [exact Ks |]. split; [apply stored_score_not_nan | exact K7]. }
       assert (Hrow : art_url row = url a) by reflexivity.
       clearbody row.
       destruct (generate_and_store a _ sr (S (length (calls s))) mid)
         as [[[tw th] li] s1 | e s1]; cbn [final] in *.
       - destruct (write_output_summary dry a category sr (processed s + 1)
                     (tw, th, li) s1 Kc) as (d & Hw & Hd).
         destruct Hw as [Hw | [e Hw]]; rewrite Hw in Hr; run_m in Hr; subst r;
           cbn [final]; unfold Run.categorized in *;
           cbn [processed conn articles generated_content calls stats disk
                with_disk];
           rewrite Gp, Ga, Gg, Gc, Gr; subst mid;
           cbn [processed conn articles generated_content calls stats disk] in *;
           destruct (wants_content sr score_medium);
           cbn in K1, K2, K3, K4, K5, K6 |- *.
         all: split; [lia |]; split; [lia |]; split;
              [exists [row]; split; [reflexivity |]; cbn; split; [lia |]; split;
                 [intros r0 [<- | []]; exact Hrow
                 | intros _; constructor; [exact Hset | constructor]] |].
         all: split; [exists rows; reflexivity |]; split; [right; lia |].
         all: split; [intros p Hp; rewrite Hd by exact Hp; now rewrite Gd |].
         all: split; [eexists; split; [rewrite <- app_assoc; reflexivity |];
                      cbn; split; [lia | intros _; lia] |].
         all: split; [lia |]; try exact I.
         all: split; [lia |]; split; [lia |]; split; [lia |].
         all: apply Hex; exact Ga.
       - subst r. cbn [final]. destruct Gr as (Hwants & Hst).
         unfold Run.categorized in *.
         rewrite Gp, Ga, Gg, Gc, Hwants. subst mid. cbn [processed conn articles
           generated_content calls stats disk] in *.
         assert (Hrest : fetched (stats s1) = (fetched (stats s) + 1)%Z
                  /\ new (stats s1) = (new (stats s) + 1)%Z
                  /\ skipped_duplicate (stats s1) = skipped_duplicate (stats s)
                  /\ scored (stats s1) = (scored (stats s) + 1)%Z
                  /\ (ready (stats s1) + review (stats s1) + archive (stats s1)
                      = ready (stats s) + review (stats s) + archive (stats s) + 1)%Z
                  /\ (generated (stats s) <= generated (stats s1)
                      <= generated (stats s) + 1)%Z).
         { destruct Hst as [-> | ->]; cbn in K1, K2, K3, K4, K5, K6 |- *;
             repeat split; lia. }
         destruct Hrest as (R1 & R2 & R3 & R4 & R5 & R6).
         split; [lia |]. split; [lia |]. split.
         { exists [row]. split; [reflexivity |]. cbn. split; [lia |]. split.
           - intros r0 [<- | []]. exact Hrow.
           - intros (c & t' & [=]). }
         split; [exists rows; reflexivity |]. split; [right; lia |].
         split; [intros p Hp; now rewrite Gd |]. split.
         { eexists. split; [rewrite <- app_assoc; reflexivity |]. cbn.
           split; [lia |]. intros (c & t' & [=]). }
         split; [lia |]. exact I. }
  all: unfold Pipeline.process in Hr; run_m in Hr; rewrite Hnew in Hr;
       (destruct (Z.leb_spec max_articles (processed s)); [lia |]);
       rewrite (insert_article_fresh _ _ _ _ Hnew) in Hr; cbn zeta in Hr;
       run_m in Hr; rewrite Hscore in Hr; run_m in Hr; unfold slice_check in Hr;
       rewrite Hreason in Hr; run_m in Hr.
  5: { pose proof (categorize_facts (num_val (score sr))
                     (incr_scored (incr_new (incr_fetched (stats s))))) as Hcat.
       destruct (categorize (num_val (score sr)) score_high score_medium _)
         as [[category status] st].
       destruct Hcat as (_ & _ & K1 & K2 & K3 & K4 & K5 & K6 & _).
       run_m in Hr. unfold update_score in Hr. rewrite Hb in Hr.
       cbn [bind_value] in Hr.
       run_m in Hr. subst r.
       unfold Run.categorized in *. cbn in K1, K2, K3, K4, K5, K6 |- *.
       split; [lia |]. split; [lia |]. split.
       { eexists. split; [reflexivity |]. cbn. split; [lia |]. split.
         - intros row [<- | []]. reflexivity.
         - intros (c & t' & [=]). }
       split; [exists []; apply Hnil |]. split; [right; lia |].
       split; [reflexivity |]. split.
       { eexists. split; [reflexivity |]. cbn. split; [lia |].
         intros (c & t' & [=]). }
       split; [lia | exact I]. }
  all: subst r; cbn; unfold Run.categorized; cbn;
       (split; [lia |]); (split; [lia |]);
       (split; [eexists; split; [reflexivity |]; cbn; split; [lia |]; split;
                [intros row [<- | []]; reflexivity | intros (c & t' & [=])] |]);
       (split; [exists []; apply Hnil |]); (split; [right; lia |]);
       (split; [reflexivity |]);
       (split; [eexists; split; [reflexivity |]; cbn; split; [lia |];
                intros (c & t' & [=]) |]);
       (split; [lia | exact I]).
Qed.

Lemma article_exists_grows (c c' : Conn) (extra : list ArticleRow) (u : string) :
  articles c' = (articles c ++ extra)%list ->
  article_exists w c u = true -> article_exists w c' u = true.
Proof.
  unfold article_exists. intros -> H. rewrite existsb_app, H. reflexivity.
Qed.

(** What the loop does to the state, however it ends. *)
Lemma for_each_summary (dry : bool) (arts : list Article) (s : State) :
  let r := for_each dry arts s in
  let t := final r in
  let dp := (processed t - processed s)%Z in
  let ds := (scored (stats t) - scored (stats s))%Z in
  let dg := (generated (stats t) - generated (stats s))%Z in
  let dc := (Run.categorized (stats t) - Run.categorized (stats s))%Z in
  let dn := (new (stats t) - new (stats s))%Z in
  (fetched (stats t) - new (stats t) - skipped_duplicate (stats t)
   = fetched (stats s) - new (stats s) - skipped_duplicate (stats s))%Z
  /\ (fetched (stats s) <= fetched (stats t)
      <= fetched (stats s) + Z.of_nat (length arts))%Z
  /\ (exists extra,
        articles (conn t) = (articles (conn s) ++ extra)%list
        /\ Z.of_nat (length extra) = dp
        /\ (forall row, In row extra -> In (art_url row) (map url arts))
        /\ ((exists x t', r = Ok x t') -> Forall Run.settled extra))
  /\ (exists rows,
        generated_content (conn t) = (generated_content (conn s) ++ rows)%list)
  /\ (0 <= dp /\ processed t <= Z.max (processed s) max_articles)%Z
  /\ (forall p, ~ Run.is_log (expanduser w silverbullet_space) p ->
                disk t !! p = disk s !! p)
  /\ (exists cs,
        calls t = (calls s ++ cs)%list
        /\ (Z.of_nat (length cs) <= 2 * dp)%Z
        /\ ((exists x t', r = Ok x t') -> Z.of_nat (length cs) = ds + dg)%Z)
  /\ (0 <= dc <= ds /\ ds <= dp /\ 0 <= dg <= ds)%Z
  /\ match r with
     | Ok _ _ =>
         ds = dp /\ dc = dp /\ (dn = dp \/ dn = dp + 1)%Z
         /\ (dn = dp ->
             forall a, In a arts -> article_exists w (conn t) (url a) = true)
     | Raise _ _ => True
     end.
Proof.
  revert s. induction arts as [|a rest IH]; intros s; cbn zeta.
  { cbn. unfold Run.categorized.
    repeat split; try lia; try (exists []; repeat split; cbn; auto; try lia);
      try (now rewrite app_nil_r); try (intros row []); try (intros _; constructor);
      try tauto. }
  cbn [Pipeline.for_each]. unfold Pipeline.bind.
  pose proof (process_summary dry a s) as P. cbn zeta in P.
  destruct P as (P1 & P2 & (ex1 & P3 & P3l & P3u & P3s) & (rw1 & P4) & P5 & P6
                 & (cs1 & P7 & P7l & P7e) & P8 & P9).
  destruct (process dry a s) as [[] s1 | e s1]; cbn [final] in *.
  - specialize (IH s1). cbn zeta in IH.
    destruct IH as (I1 & I1b & (ex2 & I3 & I3l & I3u & I3s) & (rw2 & I4) & I5 & I6
                    & (cs2 & I7 & I7l & I7e) & I8 & I9).
    destruct P9 as (Q1 & Q2 & Q3 & Q4).
    assert (Hok1 : exists x t', @Ok control Continue s1 = Ok x t') by eauto.
    specialize (P3s Hok1). specialize (P7e Hok1).
    cbn [length]. split; [lia |]. split; [lia |]. split.
    { exists (ex1 ++ ex2)%list. split; [rewrite I3, P3; now rewrite app_assoc |].
      split; [rewrite length_app; lia |]. split.
      - intros row Hin. apply in_app_or in Hin. cbn [map In].
        destruct Hin as [Hin | Hin]; [left; symmetry; now apply P3u |].
        right. now apply I3u.
      - intros Hok. apply Forall_app. split; [exact P3s | now apply I3s]. }
    split; [exists (rw1 ++ rw2)%list; rewrite I4, P4; now rewrite app_assoc |].
    split; [lia |]. split; [intros p Hp; rewrite I6, P6 by exact Hp; reflexivity |].
    split.
    { exists (cs1 ++ cs2)%list. split; [rewrite I7, P7; now rewrite app_assoc |].
      rewrite length_app. split; [lia |]. intros Hok. specialize (I7e Hok). lia. }
    split; [lia |].
    destruct (for_each dry rest s1) as [[] t | e t]; cbn [final] in *.
    + destruct I9 as (J1 & J2 & J3 & J4). split; [lia |]. split; [lia |].
      split; [lia |]. intros Hdn a' [<- | Hin].
      * eapply article_exists_grows; [exact I3 | exact Q4].
      * apply J4; [lia | exact Hin].
    + exact I9.
  - destruct P9 as (Q1 & Q2 & Q3 & Q4 & Q5 & Q6).
    assert (Hok1 : exists x t', @Ok control Break s1 = Ok x t') by eauto.
    specialize (P3s Hok1). specialize (P7e Hok1).
    unfold ret. cbn [final length]. split; [lia |]. split; [lia |]. split.
    { exists ex1. split; [exact P3 |]. split; [lia |]. split.
      - intros row Hin. left. symmetry. now apply P3u.
      - intros _. exact P3s. }
    split; [exists rw1; exact P4 |]. split; [lia |]. split; [exact P6 |].
    split; [exists cs1; split; [exact P7 |]; split; [lia | intros _; lia] |].
    split; [lia |]. split; [lia |]. split; [lia |]. split; [lia |]. intros; lia.
  - cbn [length]. split; [lia |]. split; [lia |]. split.
    { exists ex1. split; [exact P3 |]. split; [lia |]. split.
      - intros row Hin. left. symmetry. now apply P3u.
      - intros (x & t' & [=]). }
    split; [exists rw1; exact P4 |]. split; [lia |]. split; [exact P6 |].
    split; [exists cs1; split; [exact P7 |]; split; [lia |];
            intros (x & t' & [=]) |].
    split; [lia | exact P9].
Qed.

Lemma for_each_all_duplicates (dry : bool) (arts : list Article) (s : State) :
  (forall a, In a arts -> article_exists w (conn s) (url a) = true) ->
  exists st,
    for_each dry arts s = Ok tt (with_stats (fun _ => st) s)
    /\ fetched st = (fetched (stats s) + Z.of_nat (length arts))%Z
    /\ skipped_duplicate st
       = (skipped_duplicate (stats s) + Z.of_nat (length arts))%Z
    /\ new st = new (stats s) /\ scored st = scored (stats s)
    /\ generated st = generated (stats s) /\ ready st = ready (stats s)
    /\ review st = review (stats s) /\ archive st = archive (stats s).
Proof.
  revert s. induction arts as [|a rest IH]; intros s Hall.
  - exists (stats s). split; [now destruct s |]. cbn. repeat split; lia.
  - cbn [Pipeline.for_each]. unfold Pipeline.bind.
    rewrite process_duplicate by (apply Hall; now left).
    destruct (IH (with_stats incr_skipped_duplicate (with_stats incr_fetched s)))
      as (st & E & H1 & H2 & H3 & H4 & H5 & H6 & H7 & H8).
    { intros a' Hin. cbn [conn with_stats]. apply Hall. now right. }
    exists st. split; [rewrite E; reflexivity |].
    cbn in H1, H2, H3, H4, H5, H6, H7, H8. cbn [length].
    repeat split; try assumption; lia.
Qed.

Lemma run_pipeline_summary (dry : bool) (api_key : string)
    (feeds : list string) (db : Conn) (fs : files) :
  let s0 := {| stats := stats0; processed := 0; conn := db; disk := fs;
               calls := [] |} in
  let arts := fetch_all_feeds (fetch_feed w) feeds in
  let r := run_pipeline dry api_key feeds db fs in
  final r = final (for_each dry arts s0)
  /\ match r, for_each dry arts s0 with
     | Ok st _, Ok _ t => st = stats t
     | Raise e _, Raise e' _ => e = e'
     | _, _ => False
     end.
Proof.
  cbn zeta. unfold Pipeline.run_pipeline.
  destruct (for_each dry (fetch_all_feeds (fetch_feed w) feeds) _); now split.
Qed.

(** X17. The counters of a run add up, however the run ends: every article
    fetched is either new or a skipped duplicate, no more articles are
    fetched than the feeds hold, and no more are generated than scored, nor
    put in a category. When the run returns, every scored article is in
    exactly one of the three categories, the calls made to the model are one
    per scored and one per generated article, and the articles counted as new
    are the scored ones, plus the one at which the budget ended the run if it
    did. *)
Theorem run_counters_add_up (dry : bool) (api_key : string)
    (feeds : list string) (db : Conn) (fs : files) :
  let r := run_pipeline dry api_key feeds db fs in
  let st := stats (final r) in
  fetched st = (new st + skipped_duplicate st)%Z
  /\ (0 <= fetched st
      <= Z.of_nat (length (fetch_all_feeds (fetch_feed w) feeds)))%Z
  /\ (0 <= ready st + review st + archive st <= scored st)%Z
  /\ (0 <= generated st <= scored st)%Z
  /\ match r with
     | Ok st' s' =>
         st' = st
         /\ scored st = (ready st + review st + archive st)%Z
         /\ Z.of_nat (length (calls s')) = (scored st + generated st)%Z
         /\ (new st = scored st \/ new st = (scored st + 1)%Z)
     | Raise _ _ => True
     end.
Proof.
  cbn zeta.
  destruct (run_pipeline_summary dry api_key feeds db fs) as [Hf Hm].
  cbn zeta in Hf, Hm. rewrite Hf.
  pose proof (for_each_summary dry (fetch_all_feeds (fetch_feed w) feeds)
                {| stats := stats0; processed := 0; conn := db; disk := fs;
                   calls := [] |}) as F.
  cbn zeta in F.
  destruct F as (F1 & F2 & _ & _ & F5 & _ & (cs & F7 & _ & F7e) & F8 & F9).
  unfold Run.categorized in *.
  cbn [stats processed calls stats0 fetched new skipped_duplicate scored
       generated ready review archive app] in *.
  split; [lia |]. split; [lia |]. split; [lia |]. split; [lia |].
  destruct (run_pipeline dry api_key feeds db fs) as [st' s' | e s'];
    [| exact I].
  destruct (for_each dry (fetch_all_feeds (fetch_feed w) feeds) _)
    as [[] t | e t]; [| contradiction].
  cbn [final] in *. subst s'. destruct F9 as (G1 & G2 & G3 & _).
  split; [exact Hm |]. split; [lia |]. split; [| lia].
  rewrite F7. rewrite F7e by eauto. lia.
Qed.

(** X18. A run stays within its budget, however it ends: it inserts at most
    [max_articles] rows (none if [max_articles] is negative), and so scores
    at most that many articles and calls the model at most twice as often. *)
Theorem run_stays_within_budget (dry : bool) (api_key : string)
    (feeds : list string) (db : Conn) (fs : files) :
  let t := final (run_pipeline dry api_key feeds db fs) in
  let budget := Z.max 0 max_articles in
  (Z.of_nat (length (articles (conn t)))
   <= Z.of_nat (length (articles db)) + budget)%Z
  /\ (scored (stats t) <= budget)%Z
  /\ (generated (stats t) <= budget)%Z
  /\ (Z.of_nat (length (calls t)) <= 2 * budget)%Z.
Proof.
  cbn zeta.
  destruct (run_pipeline_summary dry api_key feeds db fs) as [Hf _].
  cbn zeta in Hf. rewrite Hf.
  pose proof (for_each_summary dry (fetch_all_feeds (fetch_feed w) feeds)
                {| stats := stats0; processed := 0; conn := db; disk := fs;
                   calls := [] |}) as F.
  cbn zeta in F.
  destruct F as (_ & _ & (extra & F3 & F3l & _) & _ & F5 & _
                 & (cs & F7 & F7l & _) & F8 & _).
  cbn [stats processed calls stats0 scored generated conn app] in *.
  rewrite F3, F7, length_app. lia.
Qed.

(** X19. A run only adds to the record store, however it ends: the rows and
    the content rows that were there stay as they were, in place, and every
    row added carries the URL of an article of the feeds. When the run
    returns, every row it added has one of the statuses "ready", "review"
    and "archived" and a score that is a number, or no score (NULL) with the
    status "archived" where the score was NaN; there is one such row per
    scored article. *)
Theorem run_only_appends (dry : bool) (api_key : string)
    (feeds : list string) (db : Conn) (fs : files) :
  let r := run_pipeline dry api_key feeds db fs in
  let t := final r in
  exists extra rows,
    articles (conn t) = (articles db ++ extra)%list
    /\ generated_content (conn t) = (generated_content db ++ rows)%list
    /\ (forall row, In row extra ->
          In (art_url row) (map url (fetch_all_feeds (fetch_feed w) feeds)))
    /\ match r with
       | Ok st _ =>
           Forall Run.settled extra /\ Z.of_nat (length extra) = scored st
       | Raise _ _ => True
       end.
Proof.
  cbn zeta.
  destruct (run_pipeline_summary dry api_key feeds db fs) as [Hf Hm].
  cbn zeta in Hf, Hm. rewrite Hf.
  pose proof (for_each_summary dry (fetch_all_feeds (fetch_feed w) feeds)
                {| stats := stats0; processed := 0; conn := db; disk := fs;
                   calls := [] |}) as F.
  cbn zeta in F.
  destruct F as (_ & _ & (extra & F3 & F3l & F3u & F3s) & (rows & F4) & _ & _
                 & _ & _ & F9).
  cbn [stats processed stats0 scored conn] in *.
  exists extra, rows. split; [exact F3 |]. split; [exact F4 |].
  split; [exact F3u |].
  destruct (run_pipeline dry api_key feeds db fs) as [st' s' | e s'];
    [| exact I].
  destruct (for_each dry (fetch_all_feeds (fetch_feed w) feeds) _)
    as [[] t | e t]; [| contradiction].
  cbn [final] in *. subst st'. destruct F9 as (G1 & _).
  split; [apply F3s; eauto | lia].
Qed.


(** X22. Running again finds nothing new. If a run returns and counts as
    many scored articles as new ones (the budget did not end it), then a
    second run on the same feeds, from the database and the files the first
    one left, dry or not, takes every article for a duplicate: it inserts
    nothing, calls the model not at all, writes nothing, and counts every
    article as fetched and skipped. *)
Theorem rerun_finds_only_duplicates (dry dry' : bool) (api_key : string)
    (feeds : list string) (db : Conn) (fs : files) (st1 : Stats) (s1 : State) :
  run_pipeline dry api_key feeds db fs = Ok st1 s1 ->
  new st1 = scored st1 ->
  exists st2 s2,
    run_pipeline dry' api_key feeds (conn s1) (disk s1) = Ok st2 s2
    /\ conn s2 = conn s1 /\ disk s2 = disk s1 /\ calls s2 = []
    /\ fetched st2 = Z.of_nat (length (fetch_all_feeds (fetch_feed w) feeds))
    /\ skipped_duplicate st2 = fetched st2
    /\ new st2 = 0%Z /\ scored st2 = 0%Z /\ generated st2 = 0%Z
    /\ ready st2 = 0%Z /\ review st2 = 0%Z /\ archive st2 = 0%Z.
Proof.
  intros Hrun Hnew.
  destruct (run_pipeline_summary dry api_key feeds db fs) as [Hf Hm].
  cbn zeta in Hf, Hm. rewrite Hrun in Hf, Hm. cbn [final] in Hf.
  pose proof (for_each_summary dry (fetch_all_feeds (fetch_feed w) feeds)
                {| stats := stats0; processed := 0; conn := db; disk := fs;
                   calls := [] |}) as F.
  cbn zeta in F. destruct F as (_ & _ & _ & _ & _ & _ & _ & _ & F9).
  destruct (for_each dry (fetch_all_feeds (fetch_feed w) feeds) _)
    as [[] t | e t]; [| contradiction].
  cbn [final] in *. subst t st1. destruct F9 as (G1 & _ & _ & G4).
  cbn [stats processed stats0 scored new] in *.
  assert (Hall : forall a, In a (fetch_all_feeds (fetch_feed w) feeds) ->
            article_exists w (conn s1) (url a) = true) by (apply G4; lia).
  destruct (for_each_all_duplicates dry' (fetch_all_feeds (fetch_feed w) feeds)
              {| stats := stats0; processed := 0; conn := conn s1;
                 disk := disk s1; calls := [] |} Hall)
    as (st2 & E & H1 & H2 & H3 & H4 & H5 & H6 & H7 & H8).
  unfold Pipeline.run_pipeline. rewrite E. do 2 eexists.
  split; [reflexivity |]. cbn in H1, H2, H3, H4, H5, H6, H7, H8 |- *.
  repeat split; try assumption; lia.
Qed.

End RunInvariants.


(** ** Cleaning a summary (fetcher.py) *)

Section Summaries.

Import Py Html.

Lemma length_app_s (a b : string) :
  String.length (a +:+ b) = (String.length a + String.length b)%nat.
Proof. induction a as [|c a IH]; simpl; [reflexivity | now rewrite IH]. Qed.

Lemma app_empty_r (s : string) : s +:+ "" = s.
Proof. induction s as [|c s IH]; simpl; [reflexivity | now f_equal]. Qed.

Lemma sub_tags_from_length (pending : option string) (s : string) :
  (String.length (sub_tags_from pending s)
   <= String.length (default "" pending) + String.length s)%nat.
Proof.
  revert pending. induction s as [|c t IH]; intros pending.
  - destruct pending; simpl; lia.
  - cbn [sub_tags_from]. destruct pending as [buf |].
    + destruct (Ascii.eqb c ">").
      * specialize (IH None). simpl in *. lia.
      * specialize (IH (Some (buf +:+ String c ""))). simpl in *.
        rewrite length_app_s in IH. simpl in IH. lia.
    + destruct (Ascii.eqb c "<").
      * destruct t as [|c' t']; [simpl; lia |].
        destruct (Ascii.eqb c' ">").
        -- specialize (IH None). simpl in *. lia.
        -- specialize (IH (Some (String c ""))). simpl in *. lia.
      * specialize (IH None). simpl in *. lia.
Qed.

Lemma sub_spaces_from_length (in_run : bool) (s : string) :
  (String.length (sub_spaces_from in_run s) <= String.length s)%nat.
Proof.
  revert in_run. induction s as [|c t IH]; intros in_run; [simpl; lia |].
  cbn [sub_spaces_from]. destruct (isspace c); [destruct in_run |].
  - specialize (IH true). simpl. lia.
  - specialize (IH true). simpl. lia.
  - specialize (IH false). simpl. lia.
Qed.

Lemma lstrip_length (s : string) :
  (String.length (lstrip s) <= String.length s)%nat.
Proof.
  induction s as [|c t IH]; [simpl; lia |]. cbn [lstrip].
  destruct (isspace c); simpl; lia.
Qed.

Lemma rstrip_length (s : string) :
  (String.length (rstrip s) <= String.length s)%nat.
Proof.
  induction s as [|c t IH]; [simpl; lia |]. cbn [rstrip].
  destruct (rstrip t); [destruct (isspace c) |]; simpl in *; lia.
Qed.

Lemma prefix_length (p s : string) :
  String.prefix p s = true -> (String.length p <= String.length s)%nat.
Proof.
  revert s. induction p as [|a p IH]; intros s; [simpl; lia |].
  destruct s as [|b s]; [discriminate |]. cbn [String.prefix].
  destruct (ascii_dec a b); [| discriminate]. intros H. apply IH in H.
  simpl. lia.
Qed.

Lemma replace_from_length (old new : string) (skip : nat) (s : string) :
  (String.length new <= String.length old)%nat ->
  (String.length (replace_from old new skip s) + Nat.min skip (String.length s)
   <= String.length s)%nat.
Proof.
  intros Hnew. revert skip. induction s as [|c t IH]; intros skip.
  - simpl. lia.
  - cbn [replace_from]. destruct skip as [|k].
    + destruct (String.prefix old (String c t)) eqn:Hp.
      * apply prefix_length in Hp. rewrite length_app_s.
        specialize (IH (String.length old - 1)%nat). simpl in *. lia.
      * specialize (IH 0%nat). simpl in *. lia.
    + specialize (IH k). simpl in *. lia.
Qed.

Lemma replace_length (old new s : string) :
  (String.length new <= String.length old)%nat ->
  (String.length (replace old new s) <= String.length s)%nat.
Proof.
  intros H. pose proof (replace_from_length old new 0 s H). unfold replace. lia.
Qed.

(** X23. [_strip_html] never makes a text longer: what it returns has at
    most as many characters as what it was given. *)
Theorem strip_html_never_grows (text : string) :
  (String.length (_strip_html text) <= String.length text)%nat.
Proof.
  unfold _strip_html. cbn zeta.
  repeat (etransitivity; [apply replace_length; simpl; lia |]).
  unfold strip. etransitivity; [apply lstrip_length |].
  etransitivity; [apply rstrip_length |].
  etransitivity; [apply sub_spaces_from_length |].
  pose proof (sub_tags_from_length None text) as H. simpl in H. exact H.
Qed.

Lemma sub_tags_from_open (pending : option string) (s : string) :
  ~ In ">"%char (list_ascii_of_string s) ->
  sub_tags_from pending s = default "" pending +:+ s.
Proof.
  revert pending. induction s as [|c t IH]; intros pending Hs.
  - destruct pending as [buf |]; simpl; [now rewrite app_empty_r | reflexivity].
  - cbn [list_ascii_of_string In] in Hs. cbn [sub_tags_from].
    destruct (Ascii.eqb_spec c ">") as [E | _]; [exfalso; apply Hs; now left |].
    destruct pending as [buf |].
    + rewrite IH by tauto. simpl. now rewrite app_assoc_s.
    + destruct (Ascii.eqb c "<").
      * destruct t as [|c' t']; [reflexivity |].
        cbn [list_ascii_of_string In] in Hs.
        destruct (Ascii.eqb_spec c' ">") as [E | _];
          [exfalso; apply Hs; right; now left |].
        rewrite IH by tauto. reflexivity.
      * rewrite IH by tauto. reflexivity.
Qed.

Lemma replace_from_no_amp (old' new s : string) :
  ~ In "&"%char (list_ascii_of_string s) ->
  replace_from (String "&" old') new 0 s = s.
Proof.
  induction s as [|c t IH]; intros Hs; [reflexivity |].
  cbn [list_ascii_of_string In] in Hs. cbn [replace_from String.prefix].
  destruct (ascii_dec "&" c) as [E | _]; [exfalso; apply Hs; now left |].
  rewrite IH by tauto. reflexivity.
Qed.

Lemma sub_spaces_from_chars (in_run : bool) (s : string) (c : ascii) :
  In c (list_ascii_of_string (sub_spaces_from in_run s)) ->
  c = " "%char \/ In c (list_ascii_of_string s).
Proof.
  revert in_run. induction s as [|x t IH]; intros in_run; [intros [] |].
  cbn [sub_spaces_from]. destruct (isspace x); [destruct in_run |];
    cbn [list_ascii_of_string In].
  - intros H. apply IH in H. tauto.
  - intros [<- | H]; [now left | apply IH in H; tauto].
  - intros [<- | H]; [right; now left | apply IH in H; tauto].
Qed.

Lemma lstrip_chars (s : string) (c : ascii) :
  In c (list_ascii_of_string (lstrip s)) -> In c (list_ascii_of_string s).
Proof.
  induction s as [|x t IH]; [intros [] |]. cbn [lstrip].
  destruct (isspace x); [| tauto]. cbn [list_ascii_of_string In]. tauto.
Qed.

Lemma rstrip_chars (s : string) (c : ascii) :
  In c (list_ascii_of_string (rstrip s)) -> In c (list_ascii_of_string s).
Proof.
  induction s as [|x t IH]; [intros [] |]. cbn [rstrip].
  destruct (rstrip t) as [|y u]; [destruct (isspace x) |];
    cbn [list_ascii_of_string In] in *; tauto.
Qed.

(** X24. A text without [>] and without [&] has no tag and no entity for
    [_strip_html] to act on, an opening [<] or not: only its whitespace is
    normalised, every run becoming one space and the ends being stripped. *)
Theorem strip_html_plain_text (text : string) :
  ~ In ">"%char (list_ascii_of_string text) ->
  ~ In "&"%char (list_ascii_of_string text) ->
  _strip_html text = strip (sub_spaces text).
Proof.
  intros Hgt Hamp. unfold _strip_html, sub_tags. cbn zeta.
  rewrite sub_tags_from_open by exact Hgt. cbn [default String.append].
  assert (H : ~ In "&"%char (list_ascii_of_string (strip (sub_spaces text)))).
  { intros H. unfold strip, sub_spaces in H.
    apply lstrip_chars, rstrip_chars, sub_spaces_from_chars in H.
    destruct H as [H | H]; [discriminate | contradiction]. }
  unfold replace.
  now rewrite !(replace_from_no_amp _ _ (strip (sub_spaces text)) H).
Qed.

Lemma sub_tags_from_plain (a rest : string) :
  ~ In "<"%char (list_ascii_of_string a) ->
  sub_tags_from None (a +:+ rest) = a +:+ sub_tags_from None rest.
Proof.
  induction a as [|c t IH]; intros Ha; [reflexivity |].
  cbn [list_ascii_of_string In] in Ha. cbn [String.append sub_tags_from].
  destruct (Ascii.eqb_spec c "<") as [E | _]; [exfalso; apply Ha; now left |].
  rewrite IH by tauto. reflexivity.
Qed.

Lemma sub_tags_from_close (buf x b : string) :
  ~ In ">"%char (list_ascii_of_string x) ->
  sub_tags_from (Some buf) (x +:+ String ">" b)
  = String " " (sub_tags_from None b).
Proof.
  revert buf. induction x as [|c t IH]; intros buf Hx; [reflexivity |].
  cbn [list_ascii_of_string In] in Hx. cbn [String.append sub_tags_from].
  destruct (Ascii.eqb_spec c ">") as [E | _]; [exfalso; apply Hx; now left |].
  apply IH. tauto.
Qed.

(** X25. A tag counts as one space: where the text before has no [<], a
    [<], one or more characters other than [>] and a [>] are read by
    [_strip_html] as a single space would be, whatever follows. *)
Theorem strip_html_tag_is_a_space (before tag after : string) :
  ~ In "<"%char (list_ascii_of_string before) ->
  tag <> "" ->
  ~ In ">"%char (list_ascii_of_string tag) ->
  _strip_html (before +:+ "<" +:+ tag +:+ ">" +:+ after)
  = _strip_html (before +:+ " " +:+ after).
Proof.
  intros Hb Hne Ht. unfold _strip_html, sub_tags. cbn zeta.
  rewrite (sub_tags_from_plain before ("<" +:+ tag +:+ ">" +:+ after) Hb).
  rewrite (sub_tags_from_plain before (" " +:+ after) Hb).
  destruct tag as [|c tag']; [contradiction |].
  cbn [list_ascii_of_string In] in Ht.
  assert (E2 : sub_tags_from None (" " +:+ after)
               = String " " (sub_tags_from None after)) by reflexivity.
  assert (E1 : sub_tags_from None ("<" +:+ String c tag' +:+ ">" +:+ after)
               = String " " (sub_tags_from None after)).
  { rewrite <- (sub_tags_from_close "<" (String c tag') after)
      by (cbn [list_ascii_of_string In]; tauto).
    simpl String.append.
    change (sub_tags_from None (String "<" (String c (tag' +:+ String ">" after))))
      with (if Ascii.eqb c ">"
            then String "<" (sub_tags_from None (String c (tag' +:+ String ">" after)))
            else sub_tags_from (Some "<") (String c (tag' +:+ String ">" after))).
    destruct (Ascii.eqb_spec c ">") as [E | _]; [exfalso; apply Ht; now left |].
    reflexivity. }
  now rewrite E1, E2.
Qed.

End Summaries.

(** * Examples for the further properties *)

Section MoreExamples.

Import Py Fetcher Database Scorer Generator Output Pipeline Curator Log Html.

Lemma fetch_all_feeds_keeps_first_witness :
  find (fun x => String.eqb (url x) "https://example.org/taproot")
    (concat (map Sample.feed Config.RSS_FEEDS))
  = Some Sample.taproot.
Proof.
  pose proof (fetch_all_feeds_keeps_first Sample.feed Config.RSS_FEEDS) as H.
  cbn zeta in H. destruct H as (_ & _ & H).
  apply (H Sample.taproot). vm_compute. right. left. reflexivity.
Defined.

Lemma insert_then_exists_witness :
  exists i c',
    insert_article Sample.world empty_db 0 "https://example.org/lightning"
      "Lightning Network adoption grows" "Example News" None = inr (i, c')
    /\ article_exists Sample.world c' "https://example.org/lightning" = true.
Proof.
  destruct (insert_then_exists Sample.world empty_db 0
              "https://example.org/lightning"
              "Lightning Network adoption grows" "Example News" None)
    as [_ H].
  destruct H as (i & c' & Hins & _ & Hex & _).
  - vm_compute. reflexivity.
  - exists i, c'. split; [exact Hins | exact Hex].
Defined.

Lemma insert_article_id_is_new_witness :
  seq_articles Demo.one_row = 1%Z
  /\ map art_id (articles Demo.one_row) = [1%Z].
Proof.
  destruct (insert_article_id_is_new Sample.world empty_db 0
              "https://example.org/lightning"
              "Lightning Network adoption grows" "Example News" None
              1 Demo.one_row) as (_ & _ & Hseq & Hids & _).
  - vm_compute. reflexivity.
  - split; [exact Hseq | exact Hids].
Defined.


Lemma strip_code_fence_unwraps_witness :
  strip_code_fence Sample.reply_score_8_fenced
  = Sample.object3 "score" "8" "reason" (Sample.quoted "protocol news")
      "is_bitcoin_relevant" "true".
Proof.
  apply (strip_code_fence_unwraps "json"
           (Sample.object3 "score" "8" "reason"
              (Sample.quoted "protocol news") "is_bitcoin_relevant" "true")).
  cbn. intuition discriminate.
Defined.

Lemma strip_code_fence_one_line_witness :
  strip_code_fence "```json" = "".
Proof.
  apply strip_code_fence_one_line.
  - reflexivity.
  - cbn. intuition discriminate.
Defined.

Lemma parse_score_defaults_witness :
  exists sr,
    parse_score Demo.world Demo.reply_empty_object = inr sr
    /\ score sr = NFloat (Finite 1)
    /\ reason sr = PStr "No reason provided"
    /\ is_bitcoin_relevant sr = PBool false.
Proof.
  destruct (parse_score_defaults Demo.world Demo.reply_empty_object [])
    as (sr & Hp & Hs & Hr & Hf & _).
  - vm_compute. reflexivity.
  - intros [].
  - exists sr. split; [exact Hp |]. split; [exact Hs |].
    split; [exact Hr | exact Hf].
Defined.

Lemma parse_score_untyped_score_witness :
  parse_score Demo.world Demo.reply_null_score
  = inr {| score := NInt 1; reason := PStr "Failed to parse";
           is_bitcoin_relevant := PBool false |}.
Proof.
  apply (parse_score_untyped_score Demo.world Demo.reply_null_score
           [("score", PNone); ("reason", PStr "no idea")]).
  - vm_compute. reflexivity.
  - left. reflexivity.
Defined.

Lemma parse_score_keeps_any_number_witness :
  exists sr,
    parse_score Demo.world Demo.reply_score_15 = inr sr
    /\ score sr = NFloat (Finite (inject_Z 15)).
Proof.
  exists {| score := NFloat (Finite 15); reason := PStr "No reason provided";
            is_bitcoin_relevant := PBool false |}.
  split; [vm_compute; reflexivity |].
  destruct (parse_score_keeps_any_number Demo.world Demo.reply_score_15
              [("score", PInt 15)]
              {| score := NFloat (Finite 15); reason := PStr "No reason provided";
                 is_bitcoin_relevant := PBool false |}) as (H & _).
  - vm_compute. reflexivity.
  - vm_compute. reflexivity.
  - destruct (H 15%Z eq_refl) as [_ Hsmall]. apply Hsmall. vm_compute.
    discriminate.
Defined.


Lemma logs_are_separate_witness :
  append_content Sample.world "notes"
    {[ target "notes" "review" := Demo.foreign_notes ]} "ready"
    (e_title Sample.entry1) (e_url Sample.entry1) (e_source Sample.entry1)
    (e_score Sample.entry1) (e_score_reason Sample.entry1)
    (e_now Sample.entry1) (e_tweet Sample.entry1) (e_thread Sample.entry1)
    (e_linkedin Sample.entry1) true !! target "notes" "review"
  = Some Demo.foreign_notes.
Proof.
  rewrite (logs_are_separate Sample.world "notes" "ready" "review").
  - vm_compute. reflexivity.
  - left. reflexivity.
  - discriminate.
Defined.

Lemma append_at_the_end_witness :
  append_content Sample.world "notes" ∅ "ready"
    (e_title Sample.entry1) (e_url Sample.entry1) (e_source Sample.entry1)
    (e_score Sample.entry1) (e_score_reason Sample.entry1)
    (e_now Sample.entry1) (e_tweet Sample.entry1) (e_thread Sample.entry1)
    (e_linkedin Sample.entry1) false !! target "notes" "ready"
  = Some (header_block "ready" +:+ nl +:+ nl
          +:+ render Sample.world Sample.entry1).
Proof.
  pose proof (append_at_the_end Sample.world "notes" "ready" ∅ Sample.entry1
                "") as H.
  cbn zeta in H. destruct H as [H _]. apply H. apply lookup_empty.
Defined.

Lemma headerless_file_gets_no_header_witness :
  append Sample.world "notes" "ready"
    {[ target "notes" "ready" := Demo.foreign_notes ]} Sample.entry1
    !! target "notes" "ready"
  = Some (strip (nl +:+ render Sample.world Sample.entry1 +:+ nl
                 +:+ universal_newlines Demo.foreign_notes) +:+ nl).
Proof.
  apply headerless_file_gets_no_header.
  - vm_compute. reflexivity.
  - vm_compute. discriminate.
  - vm_compute. repeat constructor.
Defined.

Lemma empty_variant_is_dropped_witness :
  store_if Sample.world 1 "tweet" (PStr "") Sample.start = Ok tt Sample.start.
Proof.
  destruct (empty_variant_is_dropped Sample.world "t" "u" "s" (NFloat (Finite 8))
              (PStr "r") "now" (PStr "") PNone PNone PNone 1 "tweet"
              Sample.start) as (_ & _ & _ & H).
  - reflexivity.
  - exact H.
Defined.


Lemma rerun_finds_only_duplicates_witness :
  let t :=
    final (run_pipeline Sample.world "notes" "m" "style" (Finite 7) (Finite 4) 20 false "key"
             Config.RSS_FEEDS empty_db ∅) in
  exists st2 s2,
    run_pipeline Sample.world "notes" "m" "style" (Finite 7) (Finite 4) 20 true "key"
      Config.RSS_FEEDS (conn t) (disk t) = Ok st2 s2
    /\ calls s2 = [] /\ new st2 = 0%Z /\ skipped_duplicate st2 = fetched st2.
Proof.
  destruct (run_pipeline Sample.world "notes" "m" "style" (Finite 7) (Finite 4) 20 false "key"
              Config.RSS_FEEDS empty_db ∅) as [st1 s1 | e s1] eqn:E.
  - cbn zeta. cbn [final].
    destruct (rerun_finds_only_duplicates Sample.world "notes" "m" "style"
                (Finite 7) (Finite 4) 20 false true "key" Config.RSS_FEEDS empty_db ∅ st1 s1 E)
      as (st2 & s2 & Hrun & _ & _ & Hcalls & _ & Hsk & Hnew & _).
    + vm_compute in E. injection E as <- _. reflexivity.
    + exists st2, s2. split; [exact Hrun |]. split; [exact Hcalls |].
      split; [exact Hnew | exact Hsk].
  - vm_compute in E. discriminate E.
Defined.

Lemma strip_html_plain_text_witness :
  _strip_html ("2  < " +:+ nl +:+ " 3 ") = "2 < 3".
Proof.
  rewrite strip_html_plain_text.
  - vm_compute. reflexivity.
  - cbn. intuition discriminate.
  - cbn. intuition discriminate.
Defined.

Lemma strip_html_tag_is_a_space_witness :
  _strip_html "Hello<br/>world" = _strip_html "Hello world".
Proof.
  apply (strip_html_tag_is_a_space "Hello" "br/" "world").
  - cbn. intuition discriminate.
  - discriminate.
  - cbn. intuition discriminate.
Defined.

End MoreExamples.
